(** * information_access.py: three fetchers over one public dataset

    A shallow embedding of [access_json_api], [download_and_read_xml] and
    [access_csv_with_pandas].  The three functions talk to the network, to
    the working directory and to the console, and wrap their whole body in
    [try: ... except Exception].  They are embedded in a small monad that
    threads the world (files on disk, lines printed) and carries a raised
    exception.

    The libraries they call are not part of the program and are taken as
    an environment of oracles that either return or raise:
    [requests.get], [raise_for_status()] and [json()]; [open] and
    [os.remove]; [ET.parse]; [pd.read_csv] and the methods of the frame.
    An exception carries the name of its class; the handlers are
    [except Exception] and catch the classes that derive from
    [Exception], no others.  [print] always succeeds.  [repr] of a value that is
    not a string is a parameter of the JSON path.  A string is a
    sequence of one-byte characters. *)

From Stdlib Require Import Ascii String.
From stdpp Require Import base gmap list strings pretty.

Open Scope string_scope.
Open Scope list_scope.
Open Scope nat_scope.

(** * Part I: the program *)

(** ** Exceptions, outcomes and the world *)

(** A raised exception: the name of its class and [str(e)]. *)
Record exn := Exn { exn_type : string; exn_msg : string }.

(** The built-in classes that derive from [BaseException] and not from
    [Exception].  The program and the libraries it calls define none of
    their own, so a class of any other name derives from [Exception]. *)
Definition base_only_classes : list string :=
  ["BaseException"; "BaseExceptionGroup"; "SystemExit"; "KeyboardInterrupt";
   "GeneratorExit"].

(** [isinstance(e, Exception)]. *)
Definition is_Exception (e : exn) : bool :=
  bool_decide (exn_type e ∉ base_only_classes).

Inductive outcome (A : Type) : Type :=
| Return (a : A)
| Raise (e : exn).
Arguments Return {A} a.
Arguments Raise {A} e.

(** The part of the world the program touches: the files of the working
    directory, by name, and the lines written by [print], oldest first. *)
Record world := World {
  files : gmap string (list Byte.byte);
  stdout : list string
}.

Definition IO (A : Type) : Type := world → outcome A * world.

(** [IO] with stdpp's monad notations: [x ← c; k] and [c;; k]. *)
#[global] Instance IO_ret : MRet IO := λ A a w, (Return a, w).

#[global] Instance IO_bind : MBind IO := λ A B k m w,
  match m w with
  | (Return a, w') => k a w'
  | (Raise e, w') => (Raise e, w')
  end.

(** A library call whose result the environment decides. *)
Definition lift {A} (o : outcome A) : IO A := λ w, (o, w).

(** A library call that returns nothing, and may raise. *)
Definition lift_err (o : option exn) : IO unit :=
  λ w, match o with Some e => (Raise e, w) | None => (Return tt, w) end.

(** [print(s)]: one more line on the console. *)
Definition print (s : string) : IO unit :=
  λ w, (Return tt, World (files w) (stdout w ++ [s])).

(** [try: body except Exception as e: handler(e)]: an exception that is
    no instance of [Exception] passes through. *)
Definition try_except {A} (body : IO A) (handler : exn → IO A) : IO A :=
  λ w, match body w with
       | (Return a, w') => (Return a, w')
       | (Raise e, w') =>
           if is_Exception e then handler e w' else (Raise e, w')
       end.

(** [for x in xs: body(x)]. *)
Fixpoint for_each {A} (xs : list A) (body : A → IO unit) : IO unit :=
  match xs with
  | [] => mret tt
  | x :: xs' => body x;; for_each xs' body
  end.

(** [enumerate(xs)]. *)
Definition enumerate {A} (xs : list A) : list (nat * A) :=
  imap (λ j x, (j, x)) xs.

(** The newline inside an f-string. *)
Definition nl : string := String "010"%char "".

Set Warnings "-register-all".

(** ** Python values, as [response.json()] decodes them *)

(** A float is never computed with by the program; it is carried by its
    literal.  A [dict] keeps its insertion order and has distinct keys. *)
Inductive value : Type :=
| PyNone
| PyBool (b : bool)
| PyInt (n : Z)
| PyFloat (literal : string)
| PyStr (s : string)
| PyList (items : list value)
| PyDict (items : list (string * value)).

Definition type_name (v : value) : string :=
  match v with
  | PyNone => "NoneType"
  | PyBool _ => "bool"
  | PyInt _ => "int"
  | PyFloat _ => "float"
  | PyStr _ => "str"
  | PyList _ => "list"
  | PyDict _ => "dict"
  end.

Definition TypeError (msg : string) : exn := Exn "TypeError" msg.
Definition KeyError (key : string) : exn :=
  Exn "KeyError" ("'" +:+ key +:+ "'").

Fixpoint chars (s : string) : list string :=
  match s with
  | EmptyString => []
  | String c s' => String c "" :: chars s'
  end.

Fixpoint dict_get {V} (k : string) (d : list (string * V)) : option V :=
  match d with
  | [] => None
  | (k', v) :: d' => if decide (k' = k) then Some v else dict_get k d'
  end.

(** [key in container], for a [str] key. *)
Definition py_contains (key : string) (container : value) : outcome bool :=
  match container with
  | PyDict kvs => Return (bool_decide (is_Some (dict_get key kvs)))
  | PyList vs =>
      Return (existsb (λ v, match v with
                            | PyStr s => bool_decide (s = key)
                            | _ => false
                            end) vs)
  | PyStr s => Return (bool_decide (is_Some (index 0 key s)))
  | _ => Raise (TypeError ("argument of type '" +:+ type_name container
                           +:+ "' is not iterable"))
  end.

(** [container[key]], for a [str] key. *)
Definition py_getitem (container : value) (key : string) : outcome value :=
  match container with
  | PyDict kvs =>
      match dict_get key kvs with
      | Some v => Return v
      | None => Raise (KeyError key)
      end
  | PyList _ => Raise (TypeError "list indices must be integers or slices, not str")
  | PyStr _ => Raise (TypeError "string indices must be integers, not 'str'")
  | _ => Raise (TypeError ("'" +:+ type_name container
                           +:+ "' object is not subscriptable"))
  end.

(** [isinstance(v, list)]. *)
Definition is_list (v : value) : bool :=
  match v with PyList _ => true | _ => false end.

(** [len(v)]. *)
Definition py_len (v : value) : outcome nat :=
  match v with
  | PyList vs => Return (length vs)
  | PyDict kvs => Return (length kvs)
  | PyStr s => Return (String.length s)
  | _ => Raise (TypeError ("object of type '" +:+ type_name v
                           +:+ "' has no len()"))
  end.

(** [seq[i]] for a list and an index in [range(len(seq))]. *)
Definition py_index (v : value) (i : nat) : outcome value :=
  match v with
  | PyList vs =>
      match vs !! i with
      | Some x => Return x
      | None => Raise (Exn "IndexError" "list index out of range")
      end
  | _ => Raise (TypeError ("'" +:+ type_name v
                           +:+ "' object is not subscriptable"))
  end.

(** What [for ... in v] (here through [enumerate(v)]) goes over: the
    items of a list, the characters of a string, the keys of a dict. *)
Definition py_iter (v : value) : outcome (list value) :=
  match v with
  | PyList vs => Return vs
  | PyStr s => Return (PyStr <$> chars s)
  | PyDict kvs => Return ((λ kv, PyStr kv.1) <$> kvs)
  | _ => Raise (TypeError ("'" +:+ type_name v
                           +:+ "' object is not iterable"))
  end.

(** ** XML trees, as [ElementTree] parses them *)

Inductive element : Type :=
| Element (tag : string) (text : option string) (children : list element).

Definition tag (e : element) : string :=
  match e with Element t _ _ => t end.
Definition text (e : element) : option string :=
  match e with Element _ x _ => x end.
Definition children (e : element) : list element :=
  match e with Element _ _ cs => cs end.

(** ** Tabular frames, as [pandas] loads them

    What the program asks of a frame: its row count, its column labels,
    the rendering of its first three rows, and the description of its
    first numeric column, if it has one. *)
Record frame := Frame {
  nrows : nat;
  columns : list string;
  head3_to_string : outcome string;
  describe_first_numeric : outcome (option string)
}.

(** ** The environment *)

(** What [requests.get] hands back: [raise_for_status()] raises for an
    error status and returns otherwise; [content] is the body; [json()]
    decodes it or raises. *)
Record response := Response {
  raise_for_status : option exn;
  content : list Byte.byte;
  json : outcome value
}.

Record env := Env {
  requests_get : string → outcome response;
  open_wb : string → option exn;
  ET_parse_bytes : list Byte.byte → outcome element;
  pd_read_csv_bytes : list Byte.byte → outcome frame;
  os_remove_error : string → option exn
}.

(** ** File system calls *)

(** [with open(path, 'wb') as f: f.write(data)]: the file is created, or
    truncated when it exists, and holds exactly [data] afterwards. *)
Definition write_file (E : env) (path : string) (data : list Byte.byte)
  : IO unit :=
  λ w, match open_wb E path with
       | Some e => (Raise e, w)
       | None => (Return tt, World (<[path := data]> (files w)) (stdout w))
       end.

(** Reading [path], for the parsers that are given a file name. *)
Definition read_file (path : string) : IO (list Byte.byte) :=
  λ w, match files w !! path with
       | Some data => (Return data, w)
       | None => (Raise (Exn "FileNotFoundError"
                           ("[Errno 2] No such file or directory: '"
                            +:+ path +:+ "'")), w)
       end.

(** [os.path.exists(path)]. *)
Definition os_path_exists (path : string) : IO bool :=
  λ w, (Return (bool_decide (is_Some (files w !! path))), w).

(** [os.remove(path)]. *)
Definition os_remove (E : env) (path : string) : IO unit :=
  λ w, match os_remove_error E path with
       | Some e => (Raise e, w)
       | None =>
           match files w !! path with
           | Some _ => (Return tt, World (delete path (files w)) (stdout w))
           | None => (Raise (Exn "FileNotFoundError"
                               ("[Errno 2] No such file or directory: '"
                                +:+ path +:+ "'")), w)
           end
       end.

(** [ET.parse(path).getroot()]. *)
Definition ET_parse (E : env) (path : string) : IO element :=
  data ← read_file path; lift (ET_parse_bytes E data).

(** [pd.read_csv(path)]. *)
Definition pd_read_csv (E : env) (path : string) : IO frame :=
  data ← read_file path; lift (pd_read_csv_bytes E data).

(** ** String and dict operations used by the XML path *)

(** [sub in s] for a one-character [sub]. *)
Fixpoint contains_char (c : ascii) (s : string) : bool :=
  match s with
  | EmptyString => false
  | String c' s' => if decide (c' = c) then true else contains_char c s'
  end.

(** [s.split(sep)] for a one-character [sep]: the pieces between the
    separators, so one piece more than there are separators. *)
Fixpoint split (sep : ascii) (s : string) : list string :=
  match s with
  | EmptyString => [EmptyString]
  | String c s' =>
      if decide (c = sep) then EmptyString :: split sep s'
      else match split sep s' with
           | piece :: pieces => String c piece :: pieces
           | [] => [String c EmptyString]
           end
  end.

(** [child.tag.split('}')[-1] if '}' in child.tag else child.tag]. *)
Definition strip_namespace (t : string) : string :=
  if contains_char "}" t then List.last (split "}" t) "" else t.

(** A [dict] of the program: keys in insertion order, each once. *)
Definition dict (V : Type) : Type := list (string * V).

(** [d[k] = v]: a known key keeps its place and takes the new value, a
    new key goes last. *)
Fixpoint dict_set {V} (k : string) (v : V) (d : dict V) : dict V :=
  match d with
  | [] => [(k, v)]
  | (k', v') :: d' =>
      if decide (k' = k) then (k, v) :: d' else (k', v') :: dict_set k v d'
  end.

(** [str(x)] of an element's text, which is [None] when there is none. *)
Definition str_text (x : option string) : string :=
  match x with Some s => s | None => "None" end.

(** [elem.iter()]: the element and its descendants, in document order. *)
Fixpoint iter (e : element) : list element :=
  match e with
  | Element _ _ cs => e :: flat_map iter cs
  end.

(** [root.findall('.//row')]: the descendants of [root] (not [root]
    itself) whose tag is [row], in document order. *)
Definition findall_row (root : element) : list element :=
  filter (λ e, tag e = "row") (flat_map iter (children root)).

(** ** access_json_api *)

Section JsonFetcher.

(** [repr(v)] of a value that is not a string: Python's own rendering,
    which the program only passes on to [print]. *)
Variable py_repr : value → string.

(** [str(v)], also what an f-string puts for [{v}]. *)
Definition py_str (v : value) : string :=
  match v with
  | PyStr s => s
  | _ => py_repr v
  end.

Definition api_url : string :=
  "https://data.wa.gov/api/views/f6w7-q2d2/rows.json?accessType=DOWNLOAD".

(** ["data" in data and isinstance(data["data"], list)
     and len(data["data"]) > 0], with [and] cutting short. *)
Definition socrata_shape (data : value) : outcome bool :=
  match py_contains "data" data with
  | Raise e => Raise e
  | Return false => Return false
  | Return true =>
      match py_getitem data "data" with
      | Raise e => Raise e
      | Return d =>
          if is_list d then
            match py_len d with
            | Raise e => Raise e
            | Return n => Return (bool_decide (0 < n))
            end
          else Return false
      end
  end.

(** [str(data)[:500] + "..." if len(str(data)) > 500 else str(data)]. *)
Definition preview (s : string) : string :=
  if bool_decide (500 < String.length s)
  then substring 0 500 s +:+ "..."
  else s.

(** The inner loop's body: [if j < 5: print(f"  Field {j}: {value}")]. *)
Definition print_field (jv : nat * value) : IO unit :=
  if bool_decide (jv.1 < 5)
  then print ("  Field " +:+ pretty jv.1 +:+ ": " +:+ py_str jv.2)
  else mret tt.

(** The outer loop's body, for record number [i] of [rows]. *)
Definition print_record (rows : value) (i : nat) : IO unit :=
  record ← lift (py_index rows i);
  print (nl +:+ "Record #" +:+ pretty (i + 1) +:+ ":");;
  fields ← lift (py_iter record);
  for_each (enumerate fields) print_field.

(** The body of the [try]. *)
Definition access_json_api_try (E : env) : IO (option value) :=
  print ("Accessing JSON data from API: " +:+ api_url);;
  response ← lift (requests_get E api_url);
  lift_err (raise_for_status response);;
  data ← lift (json response);
  print (nl +:+ "JSON API Access Sample:");;
  shape ← lift (socrata_shape data);
  if (shape : bool) then
    rows ← lift (py_getitem data "data");
    n ← lift (py_len rows);
    print ("Total records: " +:+ pretty n);;
    let sample_size := 3 `min` n in
    for_each (seq 0 sample_size) (print_record rows);;
    mret (Some data)
  else
    print "JSON data structure is different than expected. Sample output:";;
    print (preview (py_str data));;
    mret (Some data).

Definition access_json_api (E : env) : IO (option value) :=
  try_except (access_json_api_try E)
    (λ e, print ("Error accessing JSON API: " +:+ exn_msg e);; mret None).

End JsonFetcher.

(** ** download_and_read_xml *)

Definition xml_url : string :=
  "https://data.wa.gov/api/views/f6w7-q2d2/rows.xml?accessType=DOWNLOAD".
Definition xml_temp_file : string := "electric_vehicle_data.xml".

(** The inner loop [for child in row], with its two variables. *)
Fixpoint row_fields (cs : list element) (record : dict (option string))
    (field_count : nat) : IO (dict (option string) * nat) :=
  match cs with
  | [] => mret (record, field_count)
  | child :: cs' =>
      let t := strip_namespace (tag child) in
      if bool_decide (field_count < 5) then
        print ("  " +:+ t +:+ ": " +:+ str_text (text child));;
        row_fields cs' (dict_set t (text child) record) (field_count + 1)
      else row_fields cs' record field_count
  end.

(** The outer loop [for i, row in enumerate(rows[:3])]. *)
Fixpoint sample_rows (irows : list (nat * element))
    (sample_records : list (dict (option string)))
  : IO (list (dict (option string))) :=
  match irows with
  | [] => mret sample_records
  | (i, row) :: rest =>
      print (nl +:+ "Record #" +:+ pretty (i + 1) +:+ ":");;
      rf ← row_fields (children row) [] 0;
      sample_rows rest (sample_records ++ [rf.1])
  end.

(** [if os.path.exists(temp_file): os.remove(temp_file); print(...)]. *)
Definition cleanup (E : env) (temp_file : string) : IO unit :=
  there ← os_path_exists temp_file;
  if (there : bool) then
    os_remove E temp_file;;
    print ("Temporary file " +:+ temp_file +:+ " removed")
  else mret tt.

Definition download_and_read_xml_try (E : env)
  : IO (option (list (dict (option string)))) :=
  let temp_file := xml_temp_file in
  print ("Downloading XML file from: " +:+ xml_url);;
  response ← lift (requests_get E xml_url);
  lift_err (raise_for_status response);;
  write_file E temp_file (content response);;
  print ("File downloaded to: " +:+ temp_file);;
  root ← ET_parse E temp_file;
  let rows := findall_row root in
  print ("Found " +:+ pretty (length rows) +:+ " records in XML file");;
  print (nl +:+ "XML File Access Sample:");;
  sample_records ← sample_rows (enumerate (take 3 rows)) [];
  cleanup E temp_file;;
  mret (Some sample_records).

Definition download_and_read_xml (E : env)
  : IO (option (list (dict (option string)))) :=
  try_except (download_and_read_xml_try E)
    (λ e, print ("Error downloading and reading XML: " +:+ exn_msg e);;
          mret None).

(** ** access_csv_with_pandas *)

Definition csv_url : string :=
  "https://data.wa.gov/api/views/f6w7-q2d2/rows.csv?accessType=DOWNLOAD".
Definition csv_temp_file : string := "electric_vehicle_data.csv".

(** [str(df.shape)]. *)
Definition shape_str (df : frame) : string :=
  "(" +:+ pretty (nrows df) +:+ ", " +:+ pretty (length (columns df)) +:+ ")".

(** [f"Columns: {', '.join(df.columns[:5])}..."]. *)
Definition columns_line (df : frame) : string :=
  "Columns: " +:+ String.concat ", " (take 5 (columns df)) +:+ "...".

Definition access_csv_with_pandas_try (E : env) : IO (option frame) :=
  let temp_file := csv_temp_file in
  print ("Downloading CSV file from: " +:+ csv_url);;
  response ← lift (requests_get E csv_url);
  lift_err (raise_for_status response);;
  write_file E temp_file (content response);;
  print ("File downloaded to: " +:+ temp_file);;
  df ← pd_read_csv E temp_file;
  print (nl +:+ "CSV Pandas Access Sample:");;
  print ("Data dimensions: " +:+ shape_str df +:+ " (rows, columns)");;
  print (columns_line df);;
  print (nl +:+ "First 3 records:");;
  rendered ← lift (head3_to_string df);
  print rendered;;
  print (nl +:+ "Basic statistics (first numeric column):");;
  described ← lift (describe_first_numeric df);
  match described with
  | Some stats => print stats
  | None => mret tt
  end;;
  cleanup E temp_file;;
  mret (Some df).

Definition access_csv_with_pandas (E : env) : IO (option frame) :=
  try_except (access_csv_with_pandas_try E)
    (λ e, print ("Error accessing CSV with pandas: " +:+ exn_msg e);;
          mret None).

(** ** Two calls in a row *)

(** One call after another, as the driver or a caller would make them. *)
Definition twice {A} (fetch : IO A) : IO A := fetch;; fetch.

(** ** The driver *)

(** [s * n]. *)
Fixpoint str_repeat (s : string) (n : nat) : string :=
  match n with
  | 0 => ""
  | S n' => s +:+ str_repeat s n'
  end.

(** The script's [__main__] block; the three names it binds are what
    it returns here. *)
Definition main (py_repr : value → string) (E : env)
  : IO (option value * option (list (dict (option string))) * option frame) :=
  print "Accessing different information structures with different technologies";;
  print (str_repeat "=" 80);;
  print (nl +:+ "1. JSON DATA VIA API");;
  print (str_repeat "-" 80);;
  json_data ← access_json_api py_repr E;
  print (nl +:+ nl +:+ "2. XML DATA VIA DOWNLOAD");;
  print (str_repeat "-" 80);;
  xml_data ← download_and_read_xml E;
  print (nl +:+ nl +:+ "3. CSV DATA VIA PANDAS LIBRARY");;
  print (str_repeat "-" 80);;
  csv_data ← access_csv_with_pandas E;
  print (nl +:+ nl +:+ "All data access methods completed.");;
  mret (json_data, xml_data, csv_data).

(** * Part II: the vocabulary of the claims *)

(** ** Lines on the console *)

(** A loop body that only prints: [lines x] are the lines it adds. *)
Definition emits {A} (body : A → IO unit) (lines : A → list string) : Prop :=
  ∀ x w, body x w = (Return tt, World (files w) (stdout w ++ lines x)).

(** ** The JSON sample *)

(** Whether [for ... in v] can go over [v], and what it goes over. *)
Definition is_iterable (v : value) : bool :=
  match py_iter v with Return _ => true | Raise _ => false end.

Definition fields_of (v : value) : list value :=
  match py_iter v with Return items => items | Raise _ => [] end.

(** The sample in the spec's words: of the first three records, the
    first five fields of each, every field with its position. *)
Definition json_sample (recs : list value) : list (list (nat * value)) :=
  (λ r, take 5 (enumerate (fields_of r))) <$> take 3 recs.

Definition json_banner : list string :=
  ["Accessing JSON data from API: " +:+ api_url;
   nl +:+ "JSON API Access Sample:"].

Section JsonLines.

Variable py_repr : value → string.

Definition field_line (jv : nat * value) : string :=
  "  Field " +:+ pretty jv.1 +:+ ": " +:+ py_str py_repr jv.2.

Definition record_lines (i : nat) (fields : list (nat * value))
  : list string :=
  (nl +:+ "Record #" +:+ pretty (i + 1) +:+ ":") :: (field_line <$> fields).

End JsonLines.

(** ** The XML sample *)

(** One round of the inner loop on the record: [record[tag] = text]. *)
Definition set_field (record : dict (option string)) (child : element)
  : dict (option string) :=
  dict_set (strip_namespace (tag child)) (text child) record.

(** The record of a row in the spec's words: the first five children,
    in order, each recorded under its bare tag. *)
Definition row_record (row : element) : dict (option string) :=
  foldl set_field [] (take 5 (children row)).

(** The descendants of an element in the spec's words: its children,
    and their descendants. *)
Inductive descendant : element → element → Prop :=
| descendant_child e c : c ∈ children e → descendant c e
| descendant_deeper e c d :
    c ∈ children e → descendant d c → descendant d e.

(** The bare tag in the spec's words: the tag itself when it has no
    ['}'], else what follows its last ['}']. *)
Definition bare_tag (t b : string) : Prop :=
  (contains_char "}" t = false ∧ b = t)
  ∨ (∃ p, t = p +:+ String "}" b ∧ contains_char "}" b = false).

Definition xml_field_line (child : element) : string :=
  "  " +:+ strip_namespace (tag child) +:+ ": " +:+ str_text (text child).

Definition xml_record_lines (i : nat) (row : element) : list string :=
  (nl +:+ "Record #" +:+ pretty (i + 1) +:+ ":")
  :: (xml_field_line <$> take 5 (children row)).

Definition xml_sample_lines (rows : list element) : list string :=
  concat (imap xml_record_lines (take 3 rows)).

(** ** Progress and error lines *)

Definition removed_line (path : string) : string :=
  "Temporary file " +:+ path +:+ " removed".

Definition xml_error_line (e : exn) : string :=
  "Error downloading and reading XML: " +:+ exn_msg e.

Definition xml_download_lines : list string :=
  ["Downloading XML file from: " +:+ xml_url;
   "File downloaded to: " +:+ xml_temp_file].

Definition xml_report_lines (root : element) : list string :=
  ["Found " +:+ pretty (length (findall_row root)) +:+ " records in XML file";
   nl +:+ "XML File Access Sample:"]
  ++ xml_sample_lines (findall_row root).

Definition csv_error_line (e : exn) : string :=
  "Error accessing CSV with pandas: " +:+ exn_msg e.

Definition csv_download_lines : list string :=
  ["Downloading CSV file from: " +:+ csv_url;
   "File downloaded to: " +:+ csv_temp_file].

Definition csv_overview_lines (df : frame) : list string :=
  [nl +:+ "CSV Pandas Access Sample:";
   "Data dimensions: " +:+ shape_str df +:+ " (rows, columns)";
   columns_line df;
   nl +:+ "First 3 records:"].

Definition stats_lines (described : option string) : list string :=
  match described with Some stats => [stats] | None => [] end.

(** ** Failure, and the disk afterwards *)



(** An outcome that, when it is an exception, is an instance of
    [Exception]. *)
Definition raises_Exception {A} (o : outcome A) : Prop :=
  match o with Raise e => is_Exception e | Return _ => True end.

Definition error_is_Exception (o : option exn) : Prop :=
  match o with Some e => is_Exception e | None => True end.

(** The libraries raise instances of [Exception] only: [requests]
    (also from the methods of its responses), [open], [ET.parse],
    [pandas] (also from the methods of its frames) and [os.remove]. *)
Definition library_raises_Exceptions (E : env) : Prop :=
  (∀ url, match requests_get E url with
          | Raise e => is_Exception e
          | Return resp =>
              error_is_Exception (raise_for_status resp)
              ∧ raises_Exception (json resp)
          end)
  ∧ (∀ path, error_is_Exception (open_wb E path))
  ∧ (∀ data, raises_Exception (ET_parse_bytes E data))
  ∧ (∀ data, match pd_read_csv_bytes E data with
             | Raise e => is_Exception e
             | Return df =>
                 raises_Exception (head3_to_string df)
                 ∧ raises_Exception (describe_first_numeric df)
             end)
  ∧ (∀ path, error_is_Exception (os_remove_error E path)).

(** A computation that raises instances of [Exception] only. *)
Definition only_Exceptions {A} (m : IO A) : Prop :=
  ∀ w e w', m w = (Raise e, w') → is_Exception e.


(** A call that failed before the write, one that failed after it, one
    that reached its [return]; and the two kinds of failure again, for
    an exception the handler does not catch. *)
Inductive file_outcome {A} (temp_file : string) (w : world)
  : outcome (option A) * world → Prop :=
| failed_before_write out :
    file_outcome temp_file w (Return None, World (files w) out)
| failed_after_write data out :
    file_outcome temp_file w
      (Return None, World (<[temp_file := data]> (files w)) out)
| returned_normally r out :
    file_outcome temp_file w
      (Return (Some r), World (delete temp_file (files w)) out)
| passed_on_before_write e out :
    file_outcome temp_file w (Raise e, World (files w) out)
| passed_on_after_write e data out :
    file_outcome temp_file w
      (Raise e, World (<[temp_file := data]> (files w)) out).

(** Steps that leave the disk alone. *)
Definition keeps_files {A} (m : IO A) : Prop :=
  ∀ w, files (m w).2 = files w.

(** ** Further vocabulary: what a call does to the world *)

(** A computation that returns [r] and prints [lines] from every world,
    and leaves the disk alone. *)
Definition says {A} (m : IO A) (r : outcome A) (lines : list string) : Prop :=
  ∀ w, m w = (r, World (files w) (stdout w ++ lines)).

Definition console_only {A} (m : IO A) : Prop := ∃ r lines, says m r lines.

(** What a call has done to its temporary file. *)
Inductive file_effect : Type :=
| Kept
| Written (data : list Byte.byte)
| Removed.

Definition apply_effect (temp_file : string) (eff : file_effect)
    (fs : gmap string (list Byte.byte)) : gmap string (list Byte.byte) :=
  match eff with
  | Kept => fs
  | Written data => <[temp_file := data]> fs
  | Removed => delete temp_file fs
  end.

(** A computation that, from every world, returns [r], prints [lines]
    and has the effect [eff] on [temp_file]. *)
Definition behaves {A} (m : IO A) (temp_file : string) (r : outcome A)
    (eff : file_effect) (lines : list string) : Prop :=
  ∀ w, m w = (r, World (apply_effect temp_file eff (files w))
                   (stdout w ++ lines)).

Definition json_error_line (e : exn) : string :=
  "Error accessing JSON API: " +:+ exn_msg e.

(** What [except Exception] makes of an exception [e] raised in the
    body on disk [fs] after the lines [out]: an instance of [Exception]
    is reported and [None] returned, another one goes on to the caller. *)
Definition handled {A} (error_line : exn → string) (e : exn)
    (fs : gmap string (list Byte.byte)) (out : list string)
  : outcome (option A) * world :=
  if is_Exception e
  then (Return None, World fs (out ++ [error_line e]))
  else (Raise e, World fs out).

(** The first exception on the way to the decoded document, if any. *)
Definition json_fetch_error (E : env) : option exn :=
  match requests_get E api_url with
  | Raise e => Some e
  | Return resp =>
      match raise_for_status resp with
      | Some e => Some e
      | None => match json resp with Raise e => Some e | Return _ => None end
      end
  end.

Definition is_data_string (v : value) : bool :=
  match v with PyStr s => bool_decide (s = "data") | _ => false end.

(** The decoded documents that [access_json_api] hands back: an object,
    unless its ["data"] is a list with a record among the first three
    that cannot be iterated; a list without the string ["data"] in it;
    a string without ["data"] in it. *)
Definition json_accepts (d : value) : bool :=
  match d with
  | PyDict kvs =>
      match dict_get "data" kvs with
      | Some (PyList recs) => forallb is_iterable (take 3 recs)
      | _ => true
      end
  | PyList vs => negb (existsb is_data_string vs)
  | PyStr s => match index 0 "data" s with Some _ => false | None => true end
  | _ => false
  end.

(** The lines a call adds to the console of the world it starts from. *)
Definition printed {A} (m : IO A) (w : world) : list string :=
  drop (length (stdout w)) (stdout (m w).2).

(** The banners of the driver. *)
Definition main_opening : list string :=
  ["Accessing different information structures with different technologies";
   str_repeat "=" 80;
   nl +:+ "1. JSON DATA VIA API";
   str_repeat "-" 80].

Definition main_before_xml : list string :=
  [nl +:+ nl +:+ "2. XML DATA VIA DOWNLOAD"; str_repeat "-" 80].

Definition main_before_csv : list string :=
  [nl +:+ nl +:+ "3. CSV DATA VIA PANDAS LIBRARY"; str_repeat "-" 80].

Definition main_closing : string :=
  nl +:+ nl +:+ "All data access methods completed.".

(** * Part III: inputs for the examples *)

(** The double quote, as a string. *)
Definition dq : string := String "034"%char "".

(** JSON text of a value whose strings need no escaping. *)
Fixpoint json_text (v : value) : string :=
  match v with
  | PyNone => "null"
  | PyBool true => "true"
  | PyBool false => "false"
  | PyInt n => pretty n
  | PyFloat literal => literal
  | PyStr s => dq +:+ s +:+ dq
  | PyList vs => "[" +:+ String.concat ", " (map json_text vs) +:+ "]"
  | PyDict kvs =>
      "{" +:+ String.concat ", "
                (map (λ kv, match kv with
                            | (k, x) => dq +:+ k +:+ dq +:+ ": " +:+ json_text x
                            end) kvs) +:+ "}"
  end.

(** Python's [repr] on values whose strings need no escaping. *)
Fixpoint repr_plain (v : value) : string :=
  match v with
  | PyNone => "None"
  | PyBool true => "True"
  | PyBool false => "False"
  | PyInt n => pretty n
  | PyFloat literal => literal
  | PyStr s => "'" +:+ s +:+ "'"
  | PyList vs => "[" +:+ String.concat ", " (map repr_plain vs) +:+ "]"
  | PyDict kvs =>
      "{" +:+ String.concat ", "
                (map (λ kv, match kv with
                            | (k, x) => "'" +:+ k +:+ "': " +:+ repr_plain x
                            end) kvs) +:+ "}"
  end.

Definition ascii_bytes (s : string) : list Byte.byte := list_byte_of_string s.

Definition empty_world : world := World ∅ [].

Definition parse_error : exn :=
  Exn "ParseError" "no element found: line 1, column 3".
Definition empty_data_error : exn :=
  Exn "EmptyDataError" "No columns to parse from file".

(** The network answers every GET with [r]; the disk never refuses;
    the parsers know the two documents given. *)
Definition serving (r : outcome response) (xml : outcome element)
    (csv : outcome frame) : env :=
  Env (λ _, r) (λ _, None) (λ _, xml) (λ _, csv) (λ _, None).

(** A 200 response whose body is the JSON text of [doc]. *)
Definition json_response (doc : value) : response :=
  Response None (ascii_bytes (json_text doc)) (Return doc).

Definition spec_records : list value :=
  [PyList [PyStr "a"; PyStr "1"; PyStr "x"; PyStr "y"; PyStr "z"; PyStr "extra"];
   PyList [PyStr "b"; PyStr "2"]].
Definition spec_document : list (string * value) :=
  [("data", PyList spec_records)].
Definition spec_response : response :=
  json_response (PyDict spec_document).
Definition spec_env : env :=
  serving (Return spec_response) (Raise parse_error) (Raise empty_data_error).

Definition scalar_document : list (string * value) :=
  [("data", PyList [PyInt 1])].
Definition scalar_response : response :=
  json_response (PyDict scalar_document).
Definition scalar_env : env :=
  serving (Return scalar_response) (Raise parse_error) (Raise empty_data_error).

Definition json_error : exn :=
  Exn "JSONDecodeError" "Expecting value: line 1 column 1 (char 0)".

Definition http_404 : exn :=
  Exn "HTTPError" "404 Client Error: Not Found for url".

(** Two vehicles in the layout of the dataset's XML export: a [row]
    that holds the [row]s.  The first field has a namespaced tag and
    [county] comes twice. *)
Definition ev_row (vin make : string) : element :=
  Element "row" None
    [Element "{urn:wa}vin_1_10" (Some vin) [];
     Element "county" (Some "King") [];
     Element "city" (Some "Seattle") [];
     Element "county" (Some "Thurston") [];
     Element "state" (Some "WA") [];
     Element "make" (Some make) []].

Definition tesla : element := ev_row "5YJ3E1EB4L" "TESLA".
Definition nissan : element := ev_row "1N4AZ0CP8F" "NISSAN".

Definition xml_document : element :=
  Element "response" None [Element "row" None [tesla; nissan]].

Definition xml_response : response :=
  Response None (ascii_bytes "<response><row>...</row></response>")
    (Raise json_error).

Definition csv_frame : frame :=
  Frame 2 ["VIN (1-10)"; "County"; "Model Year"]
    (Return "   VIN (1-10) County  Model Year")
    (Return (Some "count       2.0")).

Definition csv_response : response :=
  Response None (ascii_bytes "VIN (1-10),County,Model Year") (Raise json_error).

Definition xml_env : env :=
  serving (Return xml_response) (Return xml_document) (Raise empty_data_error).

Definition csv_env : env :=
  serving (Return csv_response) (Raise parse_error) (Return csv_frame).

(** A row whose first and third fields have the same name in two
    namespaces. *)
Definition namespaced_row : element :=
  Element "row" None
    [Element "{urn:a}f" (Some "1") [];
     Element "g" (Some "x") [];
     Element "{urn:b}f" (Some "2") [];
     Element "{urn:b}h" (Some "y") []].

Definition namespaced_document : element :=
  Element "response" None [namespaced_row].

Definition namespaced_env : env :=
  serving (Return xml_response) (Return namespaced_document)
    (Raise empty_data_error).

Definition not_found_env : env :=
  serving (Return (Response (Some http_404) [] (Raise json_error)))
    (Raise parse_error) (Raise empty_data_error).

Definition truncated_response : response :=
  Response None (ascii_bytes "<response><row>") (Raise json_error).

Definition truncated_env : env :=
  serving (Return truncated_response) (Raise parse_error)
    (Raise empty_data_error).

Definition empty_data_document : list (string * value) :=
  [("meta", PyDict []); ("data", PyList [])].

Definition empty_data_env : env :=
  serving (Return (json_response (PyDict empty_data_document)))
    (Raise parse_error) (Raise empty_data_error).



(** An environment in which all three downloads work. *)
Definition working_env : env :=
  Env (λ url, if decide (url = api_url) then Return spec_response
              else if decide (url = xml_url) then Return xml_response
              else Return csv_response)
      (λ _, None) (λ _, Return xml_document) (λ _, Return csv_frame)
      (λ _, None).

Definition permission_error : exn :=
  Exn "PermissionError" "[Errno 13] Permission denied".

(** The XML download works, but the file cannot be removed. *)
Definition locked_env : env :=
  Env (λ _, Return xml_response) (λ _, None) (λ _, Return xml_document)
      (λ _, Raise empty_data_error) (λ _, Some permission_error).

Definition mixed_records : list value :=
  [PyList [PyStr "a"; PyStr "1"]; PyInt 7; PyList [PyStr "c"]].
Definition mixed_document : list (string * value) :=
  [("data", PyList mixed_records)].
Definition mixed_env : env :=
  serving (Return (json_response (PyDict mixed_document)))
    (Raise parse_error) (Raise empty_data_error).

(** An object without ["data"], and one whose ["data"] is no list. *)
Definition no_data_document : list (string * value) :=
  [("meta", PyDict []); ("error", PyBool true)].
Definition no_data_env : env :=
  serving (Return (json_response (PyDict no_data_document)))
    (Raise parse_error) (Raise empty_data_error).

(** A disk that already holds a file of the user. *)
Definition used_world : world :=
  World {["notes.txt" := ascii_bytes "keep me"]} ["earlier output"].

(** * Part IV: proofs *)

(** ** Running computations *)

Lemma run_bind {A B} (m : IO A) (k : A → IO B) w :
  (m ≫= k) w = match m w with
               | (Return a, w') => k a w'
               | (Raise e, w') => (Raise e, w')
               end.
Proof. reflexivity. Qed.

(** Proof steps: reduce the [match] a step has exposed; run a [print];
    run a library call whose outcome a hypothesis gives. *)
Ltac io_red := cbv beta iota zeta; cbn [files stdout].
Ltac io_print := rewrite run_bind; unfold print at 1; io_red.
Ltac io_lift H := rewrite run_bind; unfold lift at 1; rewrite H; io_red.
Ltac io_lift_err H :=
  rewrite run_bind; unfold lift_err at 1; rewrite H; io_red.

Ltac io_write H :=
  rewrite run_bind; unfold write_file at 1; rewrite H; io_red.
Ltac io_read :=
  rewrite run_bind; unfold read_file at 1; io_red;
  rewrite lookup_insert_eq; io_red.

Lemma run_print s w : print s w = (Return tt, World (files w) (stdout w ++ [s])).
Proof. reflexivity. Qed.

Lemma for_each_emits {A} (body : A → IO unit) lines xs w :
  emits body lines →
  for_each xs body w
  = (Return tt, World (files w) (stdout w ++ concat (lines <$> xs))).
Proof.
  intros Hb. revert w. induction xs as [|x xs IH]; intros w; simpl.
  - rewrite app_nil_r. by destruct w.
  - rewrite run_bind, Hb, IH. simpl. by rewrite <- app_assoc.
Qed.

Lemma enumerate_length {A} (xs : list A) : length (enumerate xs) = length xs.
Proof. apply length_imap. Qed.

(** Of an enumerated list, the entries with index below [n], each
    turned into one line, are the first [n] entries. *)
Lemma concat_below_take {A} (g : nat * A → string) n (xs : list A) k :
  concat ((λ jv, if bool_decide (jv.1 < n) then [g jv] else [])
            <$> imap (λ j x, (k + j, x)) xs)
  = g <$> take (n - k) (imap (λ j x, (k + j, x)) xs).
Proof.
  revert k. induction xs as [|x xs IH]; intros k.
  - simpl. by rewrite take_nil.
  - rewrite imap_cons.
    rewrite (imap_ext _ (λ j y, (S k + j, y))) by (intros; simpl; f_equal; lia).
    rewrite fmap_cons. simpl. specialize (IH (S k)). simpl in IH. rewrite IH.
    case_bool_decide as Hk.
    + replace (n - (k + 0)) with (S (n - S k)) by lia.
      replace (n - k) with (S (n - S k)) by lia. reflexivity.
    + replace (n - k) with 0 by lia. replace (n - S k) with 0 by lia.
      reflexivity.
Qed.

Lemma concat_below_enumerate {A} (g : nat * A → string) n (xs : list A) :
  concat ((λ jv, if bool_decide (jv.1 < n) then [g jv] else [])
            <$> enumerate xs)
  = g <$> take n (enumerate xs).
Proof.
  pose proof (concat_below_take g n xs 0) as H.
  rewrite Nat.sub_0_r in H. exact H.
Qed.

(** A loop over [range(len(l))] whose [i]-th round prints lines that
    depend on [l[i]]. *)
Lemma for_each_seq_emits {A} (l : list A) (body : nat → IO unit)
    (lines : nat → A → list string) k w :
  (∀ i x w', l !! i = Some x →
     body (k + i) w'
     = (Return tt, World (files w') (stdout w' ++ lines (k + i) x))) →
  for_each (seq k (length l)) body w
  = (Return tt,
     World (files w) (stdout w ++ concat (imap (λ i x, lines (k + i) x) l))).
Proof.
  revert k w. induction l as [|x l IH]; intros k w Hb; simpl.
  - rewrite app_nil_r. by destruct w.
  - rewrite run_bind.
    specialize (Hb 0 x w eq_refl) as H0. rewrite Nat.add_0_r in H0.
    rewrite H0. rewrite IH.
    + simpl. rewrite <- app_assoc. rewrite Nat.add_0_r.
      do 3 f_equal.
      apply (f_equal (app _)), (f_equal (@concat string)), imap_ext.
      intros i y _. simpl.
      by rewrite Nat.add_succ_r.
    + intros i y w' Hi. specialize (Hb (S i) y w' Hi).
      by rewrite Nat.add_succ_r in Hb.
Qed.

Lemma bind_Return_inv {A B} (m : IO A) (k : A → IO B) w v w' :
  (m ≫= k) w = (Return v, w') →
  ∃ a w1, m w = (Return a, w1) ∧ k a w1 = (Return v, w').
Proof.
  rewrite run_bind. destruct (m w) as [[a|e] w1]; [eauto | discriminate].
Qed.


(** ** The JSON path *)

Section JsonOutput.

Variable py_repr : value → string.

Lemma print_field_emits :
  emits (print_field py_repr)
        (λ jv, if bool_decide (jv.1 < 5) then [field_line py_repr jv] else []).
Proof.
  intros jv w. unfold print_field. case_bool_decide.
  - apply run_print.
  - unfold mret, IO_ret. rewrite app_nil_r. by destruct w.
Qed.

Lemma print_record_run recs i r w :
  recs !! i = Some r →
  is_iterable r →
  print_record py_repr (PyList recs) i w
  = (Return tt,
     World (files w)
       (stdout w
        ++ record_lines py_repr i (take 5 (enumerate (fields_of r))))).
Proof.
  intros Hi Hr. unfold print_record, is_iterable, fields_of in *.
  destruct (py_iter r) as [items|] eqn:Hit; [|done].
  rewrite run_bind. unfold lift at 1. simpl py_index. rewrite Hi.
  rewrite run_bind, run_print, run_bind. unfold lift at 1. rewrite Hit.
  rewrite (for_each_emits _ _ _ _ print_field_emits).
  rewrite (concat_below_enumerate (field_line py_repr)). simpl.
  by rewrite <- app_assoc.
Qed.

Lemma socrata_shape_nonempty kvs recs :
  dict_get "data" kvs = Some (PyList recs) →
  recs ≠ [] →
  socrata_shape (PyDict kvs) = Return true.
Proof.
  intros Hd Hne. unfold socrata_shape. simpl. rewrite Hd.
  rewrite bool_decide_eq_true_2 by eauto. simpl.
  rewrite bool_decide_eq_true_2; [done|].
  destruct recs; [done | simpl; lia].
Qed.

Lemma socrata_shape_empty kvs :
  dict_get "data" kvs = Some (PyList []) →
  socrata_shape (PyDict kvs) = Return false.
Proof.
  intros Hd. unfold socrata_shape. simpl. rewrite Hd.
  rewrite bool_decide_eq_true_2 by eauto. reflexivity.
Qed.

Lemma json_sample_lookup recs i r :
  i < 3 → recs !! i = Some r →
  json_sample recs !! i = Some (take 5 (enumerate (fields_of r))).
Proof.
  intros Hi Hr. unfold json_sample.
  by rewrite list_lookup_fmap, lookup_take_lt, Hr.
Qed.

Lemma enumerate_lookup {A} (xs : list A) j :
  enumerate xs !! j = (λ x, (j, x)) <$> xs !! j.
Proof. unfold enumerate. apply list_lookup_imap. Qed.

(** C1, as the code has it: when the decoded document is an object whose
    ["data"] is a non-empty list and the records sampled (the first
    three, or fewer) are iterable (arrays, strings or objects),
    [access_json_api] prints [min(3, len(data))] records, each with its
    first [min(5, len(record))] fields as index and value in their
    order, and returns the whole decoded document. *)
Theorem access_json_api_sample E w resp kvs recs :
  requests_get E api_url = Return resp →
  raise_for_status resp = None →
  json resp = Return (PyDict kvs) →
  dict_get "data" kvs = Some (PyList recs) →
  recs ≠ [] →
  Forall is_iterable (take 3 recs) →
  access_json_api py_repr E w
  = (Return (Some (PyDict kvs)),
     World (files w)
       (stdout w ++ json_banner
        ++ ["Total records: " +:+ pretty (length recs)]
        ++ concat (imap (record_lines py_repr) (json_sample recs))))
  ∧ length (json_sample recs) = 3 `min` length recs
  ∧ ∀ i r, i < 3 → recs !! i = Some r →
      ∃ fields,
        json_sample recs !! i = Some fields
        ∧ length fields = 5 `min` length (fields_of r)
        ∧ ∀ j, j < 5 → fields !! j = (λ x, (j, x)) <$> fields_of r !! j.
Proof.
  intros Hget Hst Hjson Hdata Hne Hiter. split; [|split].
  - unfold access_json_api, try_except, access_json_api_try.
    io_print. io_lift Hget. io_lift_err Hst. io_lift Hjson. io_print.
    rewrite run_bind. unfold lift at 1.
    rewrite (socrata_shape_nonempty _ _ Hdata Hne). io_red.
    rewrite run_bind. unfold lift at 1. simpl py_getitem. rewrite Hdata.
    io_red. rewrite run_bind. unfold lift at 1. simpl py_len. io_red.
    io_print. rewrite run_bind.
    rewrite <- (length_take recs 3).
    rewrite (for_each_seq_emits (take 3 recs) _
               (λ i r, record_lines py_repr i
                         (take 5 (enumerate (fields_of r))))).
    + unfold mret, IO_ret, json_banner, json_sample. simpl files. simpl stdout.
      rewrite imap_fmap. do 2 f_equal.
      rewrite <- !app_assoc. reflexivity.
    + intros i r w' Hi. apply lookup_take_Some in Hi as [Hi Hlt].
      simpl. apply print_record_run; [done|].
      rewrite Forall_forall in Hiter. apply Hiter.
      apply list_elem_of_lookup. exists i. by rewrite lookup_take_lt.
  - unfold json_sample. by rewrite length_fmap, length_take.
  - intros i r Hi Hr. eexists. split; [by apply json_sample_lookup|]. split.
    + by rewrite length_take, enumerate_length.
    + intros j Hj. by rewrite lookup_take_lt, enumerate_lookup.
Qed.

End JsonOutput.

Lemma access_json_api_sample_witness :
  json_sample spec_records
  = [[(0, PyStr "a"); (1, PyStr "1"); (2, PyStr "x"); (3, PyStr "y");
      (4, PyStr "z")];
     [(0, PyStr "b"); (1, PyStr "2")]]
  ∧ access_json_api repr_plain spec_env empty_world
    = (Return (Some (PyDict spec_document)),
       World ∅
         ([] ++ json_banner ++ ["Total records: 2"]
          ++ [nl +:+ "Record #1:"; "  Field 0: a"; "  Field 1: 1";
              "  Field 2: x"; "  Field 3: y"; "  Field 4: z";
              nl +:+ "Record #2:"; "  Field 0: b"; "  Field 1: 2"])).
Proof.
  split; [reflexivity|].
  refine (proj1 (access_json_api_sample repr_plain spec_env empty_world
                   spec_response spec_document spec_records
                   eq_refl eq_refl eq_refl eq_refl _ _)).
  - discriminate.
  - repeat constructor.
Defined.

(** C1 as stated fails on a record that cannot be iterated: for the body
    [{"data": [1]}] the response is successful, ["data"] is a non-empty
    list, yet [enumerate(1)] raises after the record's heading, and
    [access_json_api] returns [None], not the document. *)
Lemma access_json_api_scalar_record :
  requests_get scalar_env api_url = Return scalar_response
  ∧ raise_for_status scalar_response = None
  ∧ json scalar_response = Return (PyDict scalar_document)
  ∧ dict_get "data" scalar_document = Some (PyList [PyInt 1])
  ∧ [PyInt 1] ≠ []
  ∧ access_json_api repr_plain scalar_env empty_world
    = (Return None,
       World ∅
         (json_banner
          ++ ["Total records: 1"; nl +:+ "Record #1:";
              "Error accessing JSON API: 'int' object is not iterable"]))
  ∧ (access_json_api repr_plain scalar_env empty_world).1
    ≠ Return (Some (PyDict scalar_document)).
Proof. repeat split; discriminate. Qed.

Lemma substring_prefix (n : nat) (s : string) :
  n ≤ String.length s →
  String.length (substring 0 n s) = n
  ∧ ∃ rest, s = substring 0 n s +:+ rest.
Proof.
  revert s. induction n as [|n IH]; intros s Hn.
  - destruct s; simpl; eauto.
  - destruct s as [|c s]; simpl in *; [lia|].
    destruct (IH s) as (Hlen & rest & Hs); [lia|].
    split; [by rewrite Hlen|]. exists rest. by rewrite Hs at 1.
Qed.

(** C9: an object whose ["data"] is an empty list takes the branch for
    an unexpected shape: after the two banner lines, [access_json_api]
    prints the notice and the preview of [str(data)] (all of it up to
    500 characters, else its first 500 and an ellipsis), no record, and
    returns the whole decoded document. *)
Theorem access_json_api_empty_data py_repr E w resp kvs :
  requests_get E api_url = Return resp →
  raise_for_status resp = None →
  json resp = Return (PyDict kvs) →
  dict_get "data" kvs = Some (PyList []) →
  let s := py_repr (PyDict kvs) in
  access_json_api py_repr E w
  = (Return (Some (PyDict kvs)),
     World (files w)
       (stdout w ++ json_banner
        ++ ["JSON data structure is different than expected. Sample output:";
            preview s]))
  ∧ (String.length s ≤ 500 → preview s = s)
  ∧ (500 < String.length s →
       preview s = substring 0 500 s +:+ "..."
       ∧ String.length (substring 0 500 s) = 500
       ∧ ∃ rest, s = substring 0 500 s +:+ rest).
Proof.
  intros Hget Hst Hjson Hdata s. split; [|split].
  - unfold access_json_api, try_except, access_json_api_try.
    io_print. io_lift Hget. io_lift_err Hst. io_lift Hjson. io_print.
    rewrite run_bind. unfold lift at 1.
    rewrite (socrata_shape_empty _ Hdata). io_red.
    io_print. io_print. unfold mret, IO_ret, json_banner.
    rewrite <- !app_assoc. reflexivity.
  - intros Hs. unfold preview. by rewrite bool_decide_eq_false_2 by lia.
  - intros Hs. unfold preview. rewrite bool_decide_eq_true_2 by lia.
    split; [done|]. apply substring_prefix. lia.
Qed.

Lemma access_json_api_empty_data_witness :
  access_json_api repr_plain empty_data_env empty_world
  = (Return (Some (PyDict empty_data_document)),
     World ∅
       ([] ++ json_banner
        ++ ["JSON data structure is different than expected. Sample output:";
            preview "{'meta': {}, 'data': []}"])).
Proof.
  exact (proj1 (access_json_api_empty_data repr_plain empty_data_env
                  empty_world _ empty_data_document
                  eq_refl eq_refl eq_refl eq_refl)).
Defined.

(** ** Splitting a tag at ['}'] *)

Lemma split_nonempty sep s : split sep s ≠ [].
Proof.
  destruct s as [|c s]; simpl; [done|].
  case_decide; [done|]. by destruct (split sep s).
Qed.

Lemma split_app sep p b :
  split sep (p +:+ String sep b) = split sep p ++ split sep b.
Proof.
  induction p as [|c p IH]; simpl.
  - by rewrite decide_True.
  - case_decide; [by rewrite IH|]. rewrite IH.
    pose proof (split_nonempty sep p). by destruct (split sep p).
Qed.

Lemma split_without sep s : contains_char sep s = false → split sep s = [s].
Proof.
  induction s as [|c s IH]; simpl; [done|].
  case_decide; [done|]. intros Hs. by rewrite IH.
Qed.

(** A string that has the separator ends in a piece without it. *)
Lemma last_occurrence sep s :
  contains_char sep s = true →
  ∃ p b, s = p +:+ String sep b ∧ contains_char sep b = false.
Proof.
  induction s as [|c s IH]; simpl; [done|]. intros Hs.
  destruct (contains_char sep s) eqn:Hrest.
  - destruct IH as (p & b & -> & Hb); [done|]. by exists (String c p), b.
  - case_decide as Hc; [|done]. subst c. by exists "", s.
Qed.

Lemma contains_char_app sep p b :
  contains_char sep (p +:+ String sep b) = true.
Proof.
  induction p as [|c p IH]; simpl.
  - by rewrite decide_True.
  - by case_decide.
Qed.

Lemma strip_namespace_after p b :
  contains_char "}" b = false → strip_namespace (p +:+ String "}" b) = b.
Proof.
  intros Hb. unfold strip_namespace.
  rewrite contains_char_app, split_app, (split_without _ b Hb).
  apply last_last.
Qed.

(** The split-and-take-last of the program is the bare tag of the spec. *)
Lemma strip_namespace_bare t b : bare_tag t b ↔ b = strip_namespace t.
Proof.
  split.
  - intros [[Ht ->]|(p & -> & Hb)].
    + unfold strip_namespace. by rewrite Ht.
    + by rewrite strip_namespace_after.
  - intros ->. destruct (contains_char "}" t) eqn:Ht.
    + destruct (last_occurrence _ _ Ht) as (p & b & -> & Hb).
      right. exists p. by rewrite strip_namespace_after.
    + left. unfold strip_namespace. by rewrite Ht.
Qed.

(** ** Records as dicts *)

Lemma dict_get_set {V} k (v : V) d : dict_get k (dict_set k v d) = Some v.
Proof.
  induction d as [|[k' v'] d IH]; simpl.
  - by rewrite decide_True.
  - case_decide; simpl; [by rewrite decide_True | by rewrite decide_False].
Qed.

Lemma dict_get_set_ne {V} k k' (v : V) d :
  k ≠ k' → dict_get k' (dict_set k v d) = dict_get k' d.
Proof.
  intros Hne. induction d as [|[k0 v0] d IH]; simpl.
  - by rewrite decide_False.
  - case_decide; simpl.
    + subst k0. by rewrite !decide_False.
    + by rewrite IH.
Qed.

Lemma dict_set_keys {V} k (v : V) d k' :
  k' ∈ (dict_set k v d).*1 ↔ k' = k ∨ k' ∈ d.*1.
Proof.
  induction d as [|[k0 v0] d IH]; simpl.
  - rewrite elem_of_cons, elem_of_nil. tauto.
  - case_decide; simpl; rewrite !elem_of_cons; [subst k0; tauto|].
    rewrite IH. tauto.
Qed.

Lemma dict_set_length_known {V} k (v : V) d :
  k ∈ d.*1 → length (dict_set k v d) = length d.
Proof.
  induction d as [|[k0 v0] d IH]; simpl.
  - by intros ?%elem_of_nil.
  - intros Hk. case_decide; simpl; [done|].
    apply elem_of_cons in Hk as [->|Hk]; [done|]. by rewrite IH.
Qed.

Lemma dict_set_length_le {V} k (v : V) d :
  length (dict_set k v d) ≤ S (length d).
Proof.
  induction d as [|[k0 v0] d IH]; simpl; [lia|].
  case_decide; simpl; lia.
Qed.

Lemma foldl_set_field_keys cs d k :
  k ∈ (foldl set_field d cs).*1
  ↔ k ∈ d.*1 ∨ ∃ child, child ∈ cs ∧ strip_namespace (tag child) = k.
Proof.
  revert d. induction cs as [|c cs IH]; intros d; simpl.
  - split; [by left|]. intros [?|(c & []%elem_of_nil & _)]. done.
  - rewrite IH. unfold set_field. rewrite dict_set_keys. split.
    + intros [[->|?]|(c' & ? & ?)]; [right; exists c|by left|right; exists c'];
        rewrite elem_of_cons; auto.
    + intros [?|(c' & [->|?]%elem_of_cons & ?)]; eauto.
Qed.

Lemma foldl_set_field_length cs d :
  length (foldl set_field d cs) ≤ length d + length cs.
Proof.
  revert d. induction cs as [|c cs IH]; intros d; simpl; [lia|].
  etrans; [apply IH|]. unfold set_field.
  pose proof (dict_set_length_le (strip_namespace (tag c)) (text c) d). lia.
Qed.

(** Children with other tags leave the entry of [k] alone. *)
Lemma foldl_set_field_other cs d k :
  Forall (λ child, strip_namespace (tag child) ≠ k) cs →
  dict_get k (foldl set_field d cs) = dict_get k d.
Proof.
  revert d. induction cs as [|c cs IH]; intros d Hcs; simpl; [done|].
  inversion Hcs; subst. rewrite IH by done.
  unfold set_field. by rewrite dict_get_set_ne.
Qed.

(** ** The loops of the XML path *)

Lemma row_fields_run cs record field_count w :
  row_fields cs record field_count w
  = (Return (foldl set_field record (take (5 - field_count) cs),
             field_count + length (take (5 - field_count) cs)),
     World (files w)
       (stdout w ++ (xml_field_line <$> take (5 - field_count) cs))).
Proof.
  revert record field_count w.
  induction cs as [|child cs IH]; intros record fc w; simpl row_fields.
  - rewrite take_nil. simpl. rewrite Nat.add_0_r, app_nil_r. by destruct w.
  - case_bool_decide as Hfc.
    + io_print. rewrite IH.
      replace (5 - fc) with (S (5 - (fc + 1))) by lia. simpl.
      rewrite <- app_assoc. do 3 f_equal. lia.
    + rewrite IH. by replace (5 - fc) with 0 by lia.
Qed.

Lemma sample_rows_run rows k sample_records w :
  sample_rows (imap (λ j row, (k + j, row)) rows) sample_records w
  = (Return (sample_records ++ (row_record <$> rows)),
     World (files w)
       (stdout w
        ++ concat (imap (λ j row, xml_record_lines (k + j) row) rows))).
Proof.
  revert k sample_records w.
  induction rows as [|row rows IH]; intros k acc w.
  - simpl. rewrite !app_nil_r. by destruct w.
  - rewrite imap_cons. simpl sample_rows. io_print.
    rewrite run_bind, row_fields_run. io_red.
    rewrite (imap_ext _ (λ j r, (S k + j, r)))
      by (intros; simpl; f_equal; lia).
    rewrite IH. simpl. rewrite <- !app_assoc. simpl.
    rewrite !Nat.add_0_r. do 4 f_equal.
    apply (f_equal (app _)), (f_equal (@concat string)), imap_ext.
    intros j r _. simpl. by rewrite Nat.add_succ_r.
Qed.

Lemma sample_rows_enumerate rows w :
  sample_rows (enumerate rows) [] w
  = (Return (row_record <$> rows),
     World (files w) (stdout w ++ concat (imap xml_record_lines rows))).
Proof. apply (sample_rows_run rows 0 [] w). Qed.

(** ** Cleanup *)

(** Cleanup on a disk that holds the file: it goes, unless [os.remove]
    raises. *)
Lemma cleanup_run E path data fs out :
  cleanup E path (World (<[path := data]> fs) out)
  = match os_remove_error E path with
    | Some e => (Raise e, World (<[path := data]> fs) out)
    | None => (Return tt, World (delete path fs) (out ++ [removed_line path]))
    end.
Proof.
  unfold cleanup. rewrite run_bind. unfold os_path_exists at 1. io_red.
  rewrite lookup_insert_eq, bool_decide_eq_true_2 by eauto.
  rewrite run_bind. unfold os_remove at 1.
  destruct (os_remove_error E path) as [e|]; [done|]. io_red.
  rewrite lookup_insert_eq. io_red. rewrite delete_insert_eq.
  reflexivity.
Qed.

(** ** Paths through download_and_read_xml *)

Lemma handled_Exception {A} error_line e fs out :
  is_Exception e →
  @handled A error_line e fs out
  = (Return None, World fs (out ++ [error_line e])).
Proof. intros He%Is_true_true. unfold handled. by rewrite He. Qed.

Lemma handled_other {A} error_line e fs out :
  ¬ is_Exception e →
  @handled A error_line e fs out = (Raise e, World fs out).
Proof. intros He%Is_true_false. unfold handled. by rewrite He. Qed.

Ltac io_handled :=
  unfold handled;
  match goal with |- context [is_Exception ?e] => destruct (is_Exception e) end;
  [ io_print; unfold mret, IO_ret; by rewrite <- ?app_assoc
  | by rewrite <- ?app_assoc ].

Section XmlPaths.

Variables (E : env) (w : world).

Lemma xml_get_raises e :
  requests_get E xml_url = Raise e →
  download_and_read_xml E w
  = handled xml_error_line e (files w)
      (stdout w ++ ["Downloading XML file from: " +:+ xml_url]).
Proof.
  intros Hget. unfold download_and_read_xml, try_except,
    download_and_read_xml_try. io_red. io_print. io_lift Hget. io_handled.
Qed.

Lemma xml_status_raises resp e :
  requests_get E xml_url = Return resp →
  raise_for_status resp = Some e →
  download_and_read_xml E w
  = handled xml_error_line e (files w)
      (stdout w ++ ["Downloading XML file from: " +:+ xml_url]).
Proof.
  intros Hget Hst. unfold download_and_read_xml, try_except,
    download_and_read_xml_try. io_red. io_print. io_lift Hget.
  io_lift_err Hst. io_handled.
Qed.

Lemma xml_open_raises resp e :
  requests_get E xml_url = Return resp →
  raise_for_status resp = None →
  open_wb E xml_temp_file = Some e →
  download_and_read_xml E w
  = handled xml_error_line e (files w)
      (stdout w ++ ["Downloading XML file from: " +:+ xml_url]).
Proof.
  intros Hget Hst Hopen. unfold download_and_read_xml, try_except,
    download_and_read_xml_try. io_red. io_print. io_lift Hget.
  io_lift_err Hst. io_write Hopen. io_handled.
Qed.

(** The parse raises: the cleanup does not run, and the file written
    stays on disk. *)
Lemma xml_parse_raises resp e :
  requests_get E xml_url = Return resp →
  raise_for_status resp = None →
  open_wb E xml_temp_file = None →
  ET_parse_bytes E (content resp) = Raise e →
  download_and_read_xml E w
  = handled xml_error_line e (<[xml_temp_file := content resp]> (files w))
      (stdout w ++ xml_download_lines).
Proof.
  intros Hget Hst Hopen Hparse. unfold download_and_read_xml, try_except,
    download_and_read_xml_try. io_red. io_print. io_lift Hget.
  io_lift_err Hst. io_write Hopen. io_print.
  rewrite run_bind. unfold ET_parse at 1. io_read.
  unfold lift at 1. rewrite Hparse. io_red.
  unfold xml_download_lines. io_handled.
Qed.

Lemma xml_parsed resp root :
  requests_get E xml_url = Return resp →
  raise_for_status resp = None →
  open_wb E xml_temp_file = None →
  ET_parse_bytes E (content resp) = Return root →
  download_and_read_xml E w
  = match os_remove_error E xml_temp_file with
    | Some e =>
        handled xml_error_line e
          (<[xml_temp_file := content resp]> (files w))
          (stdout w ++ xml_download_lines ++ xml_report_lines root)
    | None =>
        (Return (Some (row_record <$> take 3 (findall_row root))),
         World (delete xml_temp_file (files w))
           (stdout w ++ xml_download_lines ++ xml_report_lines root
            ++ [removed_line xml_temp_file]))
    end.
Proof.
  intros Hget Hst Hopen Hparse. unfold download_and_read_xml, try_except,
    download_and_read_xml_try. io_red. io_print. io_lift Hget.
  io_lift_err Hst. io_write Hopen. io_print.
  rewrite run_bind. unfold ET_parse at 1. io_read.
  unfold lift at 1. rewrite Hparse. io_red. io_print. io_print.
  rewrite run_bind, sample_rows_enumerate. io_red.
  rewrite run_bind, cleanup_run.
  unfold xml_download_lines, xml_report_lines, xml_sample_lines.
  destruct (os_remove_error E xml_temp_file) as [e|]; io_red.
  - io_handled.
  - unfold mret, IO_ret. by rewrite <- !app_assoc.
Qed.

End XmlPaths.

(** ** Paths through access_csv_with_pandas *)

Section CsvPaths.

Variables (E : env) (w : world).

Lemma csv_get_raises e :
  requests_get E csv_url = Raise e →
  access_csv_with_pandas E w
  = handled csv_error_line e (files w)
      (stdout w ++ ["Downloading CSV file from: " +:+ csv_url]).
Proof.
  intros Hget. unfold access_csv_with_pandas, try_except,
    access_csv_with_pandas_try. io_red. io_print. io_lift Hget. io_handled.
Qed.

Lemma csv_status_raises resp e :
  requests_get E csv_url = Return resp →
  raise_for_status resp = Some e →
  access_csv_with_pandas E w
  = handled csv_error_line e (files w)
      (stdout w ++ ["Downloading CSV file from: " +:+ csv_url]).
Proof.
  intros Hget Hst. unfold access_csv_with_pandas, try_except,
    access_csv_with_pandas_try. io_red. io_print. io_lift Hget.
  io_lift_err Hst. io_handled.
Qed.

Lemma csv_open_raises resp e :
  requests_get E csv_url = Return resp →
  raise_for_status resp = None →
  open_wb E csv_temp_file = Some e →
  access_csv_with_pandas E w
  = handled csv_error_line e (files w)
      (stdout w ++ ["Downloading CSV file from: " +:+ csv_url]).
Proof.
  intros Hget Hst Hopen. unfold access_csv_with_pandas, try_except,
    access_csv_with_pandas_try. io_red. io_print. io_lift Hget.
  io_lift_err Hst. io_write Hopen. io_handled.
Qed.

Lemma csv_read_raises resp e :
  requests_get E csv_url = Return resp →
  raise_for_status resp = None →
  open_wb E csv_temp_file = None →
  pd_read_csv_bytes E (content resp) = Raise e →
  access_csv_with_pandas E w
  = handled csv_error_line e (<[csv_temp_file := content resp]> (files w))
      (stdout w ++ csv_download_lines).
Proof.
  intros Hget Hst Hopen Hread. unfold access_csv_with_pandas, try_except,
    access_csv_with_pandas_try. io_red. io_print. io_lift Hget.
  io_lift_err Hst. io_write Hopen. io_print.
  rewrite run_bind. unfold pd_read_csv at 1. io_read.
  unfold lift at 1. rewrite Hread. io_red.
  unfold csv_download_lines. io_handled.
Qed.

Lemma csv_loaded resp df :
  requests_get E csv_url = Return resp →
  raise_for_status resp = None →
  open_wb E csv_temp_file = None →
  pd_read_csv_bytes E (content resp) = Return df →
  access_csv_with_pandas E w
  = let kept := <[csv_temp_file := content resp]> (files w) in
    let shown := stdout w ++ csv_download_lines ++ csv_overview_lines df in
    let heading := nl +:+ "Basic statistics (first numeric column):" in
    match head3_to_string df with
    | Raise e => handled csv_error_line e kept shown
    | Return rendered =>
        match describe_first_numeric df with
        | Raise e =>
            handled csv_error_line e kept (shown ++ [rendered; heading])
        | Return described =>
            match os_remove_error E csv_temp_file with
            | Some e =>
                handled csv_error_line e kept
                  (shown ++ [rendered; heading] ++ stats_lines described)
            | None =>
                (Return (Some df),
                 World (delete csv_temp_file (files w))
                   (shown ++ [rendered; heading] ++ stats_lines described
                    ++ [removed_line csv_temp_file]))
            end
        end
    end.
Proof.
  intros Hget Hst Hopen Hread. unfold access_csv_with_pandas, try_except,
    access_csv_with_pandas_try. io_red. io_print. io_lift Hget.
  io_lift_err Hst. io_write Hopen. io_print.
  rewrite run_bind. unfold pd_read_csv at 1. io_read.
  unfold lift at 1. rewrite Hread. io_red.
  do 4 io_print. unfold csv_download_lines, csv_overview_lines.
  rewrite run_bind. unfold lift at 1.
  destruct (head3_to_string df) as [rendered|e]; io_red.
  2: { io_handled. }
  do 2 io_print. rewrite run_bind. unfold lift at 1.
  destruct (describe_first_numeric df) as [described|e]; io_red.
  2: { io_handled. }
  rewrite run_bind.
  assert (∀ fs out,
    match described with Some stats => print stats | None => mret tt end
      (World fs out)
    = (Return tt, World fs (out ++ stats_lines described))) as ->.
  { intros fs out. destruct described; simpl; [done|].
    unfold mret, IO_ret. by rewrite app_nil_r. }
  io_red. rewrite run_bind, cleanup_run.
  destruct (os_remove_error E csv_temp_file) as [e|]; io_red.
  - io_handled.
  - unfold mret, IO_ret. by rewrite <- !app_assoc.
Qed.

End CsvPaths.

(** ** The rows that [findall] finds *)

Lemma element_nested_ind (P : element → Prop) :
  (∀ t x cs, Forall P cs → P (Element t x cs)) → ∀ e, P e.
Proof.
  intros H. fix IH 1. intros [t x cs]. apply H.
  induction cs as [|c cs IHcs]; constructor; [apply IH | apply IHcs].
Qed.

Lemma elem_of_iter x e : x ∈ iter e ↔ x = e ∨ descendant x e.
Proof.
  revert x. induction e as [t tx cs IH] using element_nested_ind.
  intros x. simpl. rewrite elem_of_cons, list_elem_of_In, in_flat_map.
  rewrite Forall_forall in IH. split.
  - intros [->|(c & Hc%list_elem_of_In & Hx%list_elem_of_In)]; [by left|].
    right. apply IH in Hx as [->|Hx]; [| |done].
    + by apply descendant_child.
    + by apply descendant_deeper with c.
  - intros [->|Hx]; [by left|]. right.
    inversion Hx as [e c Hc|e c d Hc Hd]; subst; simpl in Hc.
    + exists x. rewrite <- !list_elem_of_In. split; [done|].
      apply IH; [done|]. by left.
    + exists c. rewrite <- !list_elem_of_In. split; [done|].
      apply IH; [done|]. by right.
Qed.

(** [findall('.//row')] finds the descendants named [row], no others. *)
Lemma findall_row_descendants root x :
  x ∈ findall_row root ↔ tag x = "row" ∧ descendant x root.
Proof.
  unfold findall_row. rewrite list_elem_of_filter.
  rewrite list_elem_of_In, in_flat_map. split.
  - intros (Ht & c & Hc%list_elem_of_In & Hx%list_elem_of_In).
    split; [done|]. apply elem_of_iter in Hx as [->|Hx].
    + by apply descendant_child.
    + by apply descendant_deeper with c.
  - intros (Ht & Hx). split; [done|].
    inversion Hx as [e c Hc|e c d Hc Hd]; subst.
    + exists x. rewrite <- !list_elem_of_In. split; [done|].
      apply elem_of_iter. by left.
    + exists c. rewrite <- !list_elem_of_In. split; [done|].
      apply elem_of_iter. by right.
Qed.

(** ** Claims on the XML sample *)

(** C3: for a document that parses, with [N] descendants named [row]
    (what [findall] lists, in document order), [download_and_read_xml]
    returns [min(3, N)] records, the [i]-th one built from the [i]-th
    such element; a record has a key exactly for the bare tag of each of
    the first five children of its row. *)
Theorem download_and_read_xml_sample E w resp root :
  requests_get E xml_url = Return resp →
  raise_for_status resp = None →
  open_wb E xml_temp_file = None →
  ET_parse_bytes E (content resp) = Return root →
  os_remove_error E xml_temp_file = None →
  ∃ sample,
    (download_and_read_xml E w).1 = Return (Some sample)
    ∧ length sample = 3 `min` length (findall_row root)
    ∧ (∀ x, x ∈ findall_row root ↔ tag x = "row" ∧ descendant x root)
    ∧ ∀ i row, i < 3 → findall_row root !! i = Some row →
        ∃ record,
          sample !! i = Some record
          ∧ record = row_record row
          ∧ ∀ k, k ∈ record.*1
                 ↔ ∃ child, child ∈ take 5 (children row)
                            ∧ bare_tag (tag child) k.
Proof.
  intros Hget Hst Hopen Hparse Hrm.
  rewrite (xml_parsed E w resp root Hget Hst Hopen Hparse), Hrm.
  eexists. split; [reflexivity|]. split; [|split].
  - by rewrite length_fmap, length_take.
  - intros x. apply findall_row_descendants.
  - intros i row Hi Hrow. exists (row_record row). split; [|split; [done|]].
    + by rewrite list_lookup_fmap, lookup_take_lt, Hrow.
    + intros k. unfold row_record. rewrite foldl_set_field_keys. split.
      * intros [[]%elem_of_nil|(c & Hc & <-)].
        exists c. by rewrite strip_namespace_bare.
      * intros (c & Hc & ->%strip_namespace_bare). right. by exists c.
Qed.

Lemma download_and_read_xml_sample_witness :
  length (findall_row xml_document) = 3
  ∧ ∃ sample,
      (download_and_read_xml xml_env empty_world).1 = Return (Some sample)
      ∧ length sample = 3
      ∧ sample !! 1
        = Some [("vin_1_10", Some "5YJ3E1EB4L"); ("county", Some "Thurston");
                ("city", Some "Seattle"); ("state", Some "WA")].
Proof.
  split; [reflexivity|].
  destruct (download_and_read_xml_sample xml_env empty_world xml_response
              xml_document eq_refl eq_refl eq_refl eq_refl eq_refl)
    as (sample & Hrun & Hlen & _ & Hrows).
  exists sample. split; [exact Hrun|]. split; [exact Hlen|].
  destruct (Hrows 1 tesla) as (record & Hrec & -> & _);
    [lia | reflexivity | exact Hrec].
Defined.

(** C10: when two of the first five children of a sampled row have the
    same bare tag [t] (whatever their namespaces), the record returned
    for that row maps [t] to the text of the last of them, and has fewer
    entries than the [min(5, number of children)] children it was built
    from. *)
Theorem duplicate_tag_keeps_last E w resp root i row pre c mid c' post t :
  requests_get E xml_url = Return resp →
  raise_for_status resp = None →
  open_wb E xml_temp_file = None →
  ET_parse_bytes E (content resp) = Return root →
  os_remove_error E xml_temp_file = None →
  i < 3 →
  findall_row root !! i = Some row →
  take 5 (children row) = pre ++ c :: mid ++ c' :: post →
  bare_tag (tag c) t →
  bare_tag (tag c') t →
  Forall (λ child, ¬ bare_tag (tag child) t) post →
  ∃ sample record,
    (download_and_read_xml E w).1 = Return (Some sample)
    ∧ sample !! i = Some record
    ∧ dict_get t record = Some (text c')
    ∧ length record < 5 `min` length (children row).
Proof.
  intros Hget Hst Hopen Hparse Hrm Hi Hrow Hsplit Hc%strip_namespace_bare
    Hc'%strip_namespace_bare Hpost.
  assert (Forall (λ child, strip_namespace (tag child) ≠ t) post) as Hpost'.
  { eapply Forall_impl; [exact Hpost|]. intros child Hchild Heq.
    apply Hchild, strip_namespace_bare. by rewrite Heq. }
  rewrite (xml_parsed E w resp root Hget Hst Hopen Hparse), Hrm.
  eexists. exists (row_record row). split; [reflexivity|]. split; [|split].
  - by rewrite list_lookup_fmap, lookup_take_lt, Hrow.
  - unfold row_record. rewrite Hsplit.
    rewrite foldl_app. simpl. rewrite foldl_app. simpl.
    rewrite foldl_set_field_other by done.
    unfold set_field at 1. rewrite <- Hc'. apply dict_get_set.
  - rewrite <- length_take, Hsplit. unfold row_record. rewrite Hsplit.
    rewrite foldl_app. simpl. rewrite foldl_app. simpl.
    set (d1 := foldl set_field [] pre).
    set (d3 := foldl set_field (set_field d1 c) mid).
    pose proof (foldl_set_field_length pre []) as H1. fold d1 in H1.
    pose proof (foldl_set_field_length mid (set_field d1 c)) as H3.
    fold d3 in H3.
    pose proof (foldl_set_field_length post (set_field d3 c')) as H5.
    pose proof (dict_set_length_le (strip_namespace (tag c)) (text c) d1)
      as H2.
    assert (length (set_field d3 c') = length d3) as H4.
    { apply dict_set_length_known. unfold d3.
      apply foldl_set_field_keys. left. unfold set_field.
      apply dict_set_keys. left. by rewrite <- Hc', Hc. }
    change (length (set_field d1 c) ≤ S (length d1)) in H2.
    clearbody d3. clearbody d1.
    simpl in H1.
    rewrite !length_app. simpl. rewrite length_app. simpl. lia.
Qed.

Lemma duplicate_tag_keeps_last_witness :
  bare_tag "{urn:a}f" "f"
  ∧ bare_tag "{urn:b}f" "f"
  ∧ ¬ bare_tag "{urn:b}h" "f"
  ∧ ∃ sample record,
      (download_and_read_xml namespaced_env empty_world).1
      = Return (Some sample)
      ∧ sample !! 0 = Some record
      ∧ dict_get "f" record = Some (Some "2")
      ∧ length record < 4.
Proof.
  assert (bare_tag "{urn:a}f" "f") as Ha.
  { right. exists "{urn:a". split; reflexivity. }
  assert (bare_tag "{urn:b}f" "f") as Hb.
  { right. exists "{urn:b". split; reflexivity. }
  assert (¬ bare_tag "{urn:b}h" "f") as Hh.
  { intros H%strip_namespace_bare. vm_compute in H. discriminate H. }
  split; [exact Ha|]. split; [exact Hb|]. split; [exact Hh|].
  exact (duplicate_tag_keeps_last namespaced_env empty_world xml_response
           namespaced_document 0 namespaced_row
           []
           (Element "{urn:a}f" (Some "1") [])
           [Element "g" (Some "x") []]
           (Element "{urn:b}f" (Some "2") [])
           [Element "{urn:b}h" (Some "y") []]
           "f"
           eq_refl eq_refl eq_refl eq_refl eq_refl
           ltac:(lia) eq_refl eq_refl Ha Hb
           ltac:(repeat constructor; exact Hh)).
Defined.

(** ** The temporary file after a failed parse *)

(** C2, on the code: a 200 response whose body is cut short.  The parse
    error is caught and reported and [None] is returned, but the cleanup
    is skipped: the file written stays on disk. *)
Theorem malformed_xml_leaves_temporary_file :
  download_and_read_xml truncated_env empty_world
  = (Return None,
     World {[xml_temp_file := ascii_bytes "<response><row>"]}
       (xml_download_lines ++ [xml_error_line parse_error]))
  ∧ files (download_and_read_xml truncated_env empty_world).2
      !! xml_temp_file
    = Some (ascii_bytes "<response><row>").
Proof.
  rewrite (xml_parse_raises truncated_env empty_world truncated_response
             parse_error eq_refl eq_refl eq_refl eq_refl).
  rewrite handled_Exception by done.
  simpl. rewrite insert_empty. split; [done|]. apply lookup_singleton_eq.
Qed.

(** C7, on the code: the same endpoint fetched twice.  The second call
    overwrites the file the first one left and fails on the same
    malformed body, so the file is still on disk after both calls. *)
Theorem repeated_malformed_xml_leaves_temporary_file :
  twice (download_and_read_xml truncated_env) empty_world
  = (Return None,
     World {[xml_temp_file := ascii_bytes "<response><row>"]}
       ((xml_download_lines ++ [xml_error_line parse_error])
        ++ xml_download_lines ++ [xml_error_line parse_error])).
Proof.
  unfold twice. rewrite run_bind.
  rewrite (xml_parse_raises truncated_env empty_world truncated_response
             parse_error eq_refl eq_refl eq_refl eq_refl).
  rewrite handled_Exception by done. io_red.
  rewrite (xml_parse_raises truncated_env _ truncated_response
             parse_error eq_refl eq_refl eq_refl eq_refl).
  rewrite handled_Exception by done.
  simpl. by rewrite insert_insert_eq, insert_empty.
Qed.

(** ** Where the temporary file is, afterwards *)

Ltac file_outcome_handled :=
  unfold handled;
  match goal with |- context [is_Exception ?e] => destruct (is_Exception e) end;
  constructor.

Lemma download_and_read_xml_outcome E w :
  file_outcome xml_temp_file w (download_and_read_xml E w).
Proof.
  destruct (requests_get E xml_url) as [resp|e] eqn:Hget.
  2: { rewrite (xml_get_raises E w e Hget). file_outcome_handled. }
  destruct (raise_for_status resp) as [e|] eqn:Hst.
  { rewrite (xml_status_raises E w resp e Hget Hst). file_outcome_handled. }
  destruct (open_wb E xml_temp_file) as [e|] eqn:Hopen.
  { rewrite (xml_open_raises E w resp e Hget Hst Hopen).
    file_outcome_handled. }
  destruct (ET_parse_bytes E (content resp)) as [root|e] eqn:Hparse.
  2: { rewrite (xml_parse_raises E w resp e Hget Hst Hopen Hparse).
       file_outcome_handled. }
  rewrite (xml_parsed E w resp root Hget Hst Hopen Hparse).
  destruct (os_remove_error E xml_temp_file);
    [file_outcome_handled | constructor].
Qed.

Lemma access_csv_with_pandas_outcome E w :
  file_outcome csv_temp_file w (access_csv_with_pandas E w).
Proof.
  destruct (requests_get E csv_url) as [resp|e] eqn:Hget.
  2: { rewrite (csv_get_raises E w e Hget). file_outcome_handled. }
  destruct (raise_for_status resp) as [e|] eqn:Hst.
  { rewrite (csv_status_raises E w resp e Hget Hst). file_outcome_handled. }
  destruct (open_wb E csv_temp_file) as [e|] eqn:Hopen.
  { rewrite (csv_open_raises E w resp e Hget Hst Hopen).
    file_outcome_handled. }
  destruct (pd_read_csv_bytes E (content resp)) as [df|e] eqn:Hread.
  2: { rewrite (csv_read_raises E w resp e Hget Hst Hopen Hread).
       file_outcome_handled. }
  rewrite (csv_loaded E w resp df Hget Hst Hopen Hread). cbv zeta.
  destruct (head3_to_string df); [|file_outcome_handled].
  destruct (describe_first_numeric df); [|file_outcome_handled].
  destruct (os_remove_error E csv_temp_file);
    [file_outcome_handled | constructor].
Qed.

Lemma returned_file_gone {A} temp_file w (r : A) w' :
  file_outcome temp_file w (Return (Some r), w') →
  files w' !! temp_file = None ∧ files w' = delete temp_file (files w).
Proof. intros Ho. inversion Ho; subst. simpl. by rewrite lookup_delete_eq. Qed.

Lemma keeps_files_print s : keeps_files (print s).
Proof. by intros w. Qed.

Lemma keeps_files_lift {A} (o : outcome A) : keeps_files (lift o).
Proof. by intros w. Qed.

Lemma keeps_files_lift_err o : keeps_files (lift_err o).
Proof. intros w. unfold lift_err. by destruct o. Qed.

Lemma keeps_files_mret {A} (a : A) : keeps_files (mret a : IO A).
Proof. by intros w. Qed.

Lemma keeps_files_bind {A B} (m : IO A) (k : A → IO B) :
  keeps_files m → (∀ a, keeps_files (k a)) → keeps_files (m ≫= k).
Proof.
  intros Hm Hk w. rewrite run_bind. specialize (Hm w).
  destruct (m w) as [[a|e] w1]; simpl in *; [|done].
  by rewrite Hk.
Qed.

Lemma keeps_files_for_each {A} (xs : list A) (body : A → IO unit) :
  (∀ x, keeps_files (body x)) → keeps_files (for_each xs body).
Proof.
  intros Hb. induction xs as [|x xs IH]; simpl.
  - apply keeps_files_mret.
  - apply keeps_files_bind; [apply Hb | by intros _].
Qed.

Lemma keeps_files_try_except {A} (body : IO A) (handler : exn → IO A) :
  keeps_files body → (∀ e, keeps_files (handler e)) →
  keeps_files (try_except body handler).
Proof.
  intros Hb Hh w. unfold try_except. specialize (Hb w).
  destruct (body w) as [[a|e] w1]; simpl in *; [done|].
  destruct (is_Exception e); [by rewrite Hh | done].
Qed.

Create HintDb io.
#[local] Hint Resolve keeps_files_print keeps_files_lift keeps_files_lift_err
  keeps_files_mret : io.

Ltac keeps_files_steps :=
  repeat first
    [ apply keeps_files_bind; [|intros ?]
    | apply keeps_files_for_each; intros ?
    | solve [auto with io] ].

Lemma access_json_api_keeps_files py_repr E :
  keeps_files (access_json_api py_repr E).
Proof.
  apply keeps_files_try_except; [|intros e; keeps_files_steps].
  unfold access_json_api_try. keeps_files_steps.
  match goal with |- context [if ?b then _ else _] => destruct b end.
  - keeps_files_steps. unfold print_record. keeps_files_steps.
    unfold print_field. case_bool_decide; auto with io.
  - keeps_files_steps.
Qed.

(** What does hold of two calls in a row: the outcome of a call does not
    depend on the disk it starts from, so a file left by an earlier call
    is written over and makes no call fail; and when the later call
    reaches its [return], its temporary file is gone. *)
Lemma handled_files {A} error_line e fs out :
  files (@handled A error_line e fs out).2 = fs.
Proof. unfold handled. by destruct (is_Exception e). Qed.

Lemma handled_ignores_disk {A} error_line e fs fs' out :
  (@handled A error_line e fs out).1 = (@handled A error_line e fs' out).1.
Proof. unfold handled. by destruct (is_Exception e). Qed.

Lemma download_and_read_xml_ignores_disk E fs fs' out :
  (download_and_read_xml E (World fs out)).1
  = (download_and_read_xml E (World fs' out)).1.
Proof.
  destruct (requests_get E xml_url) as [resp|e] eqn:Hget.
  2: { rewrite !(xml_get_raises E _ e Hget). apply handled_ignores_disk. }
  destruct (raise_for_status resp) as [e|] eqn:Hst.
  { rewrite !(xml_status_raises E _ resp e Hget Hst).
    apply handled_ignores_disk. }
  destruct (open_wb E xml_temp_file) as [e|] eqn:Hopen.
  { rewrite !(xml_open_raises E _ resp e Hget Hst Hopen).
    apply handled_ignores_disk. }
  destruct (ET_parse_bytes E (content resp)) as [root|e] eqn:Hparse.
  2: { rewrite !(xml_parse_raises E _ resp e Hget Hst Hopen Hparse).
       apply handled_ignores_disk. }
  rewrite !(xml_parsed E _ resp root Hget Hst Hopen Hparse).
  destruct (os_remove_error E xml_temp_file); [|done].
  apply handled_ignores_disk.
Qed.

Lemma access_csv_with_pandas_ignores_disk E fs fs' out :
  (access_csv_with_pandas E (World fs out)).1
  = (access_csv_with_pandas E (World fs' out)).1.
Proof.
  destruct (requests_get E csv_url) as [resp|e] eqn:Hget.
  2: { rewrite !(csv_get_raises E _ e Hget). apply handled_ignores_disk. }
  destruct (raise_for_status resp) as [e|] eqn:Hst.
  { rewrite !(csv_status_raises E _ resp e Hget Hst).
    apply handled_ignores_disk. }
  destruct (open_wb E csv_temp_file) as [e|] eqn:Hopen.
  { rewrite !(csv_open_raises E _ resp e Hget Hst Hopen).
    apply handled_ignores_disk. }
  destruct (pd_read_csv_bytes E (content resp)) as [df|e] eqn:Hread.
  2: { rewrite !(csv_read_raises E _ resp e Hget Hst Hopen Hread).
       apply handled_ignores_disk. }
  rewrite !(csv_loaded E _ resp df Hget Hst Hopen Hread). cbv zeta.
  destruct (head3_to_string df); [|apply handled_ignores_disk].
  destruct (describe_first_numeric df); [|apply handled_ignores_disk].
  destruct (os_remove_error E csv_temp_file); [|done].
  apply handled_ignores_disk.
Qed.

Lemma second_call_returning_leaves_no_file E1 E2 w :
  (∀ sample w',
     (download_and_read_xml E1;; download_and_read_xml E2) w
     = (Return (Some sample), w') →
     files w' !! xml_temp_file = None)
  ∧ (∀ df w',
       (access_csv_with_pandas E1;; access_csv_with_pandas E2) w
       = (Return (Some df), w') →
       files w' !! csv_temp_file = None).
Proof.
  split.
  - intros sample w' H. apply bind_Return_inv in H as (r & w1 & _ & H).
    pose proof (download_and_read_xml_outcome E2 w1) as Ho. rewrite H in Ho.
    by apply returned_file_gone in Ho as [? _].
  - intros df w' H. apply bind_Return_inv in H as (r & w1 & _ & H).
    pose proof (access_csv_with_pandas_outcome E2 w1) as Ho. rewrite H in Ho.
    by apply returned_file_gone in Ho as [? _].
Qed.

(** ** Normal returns and caught exceptions *)




(** *** Which exceptions a body raises *)

Lemma only_Exceptions_print s : only_Exceptions (print s).
Proof. intros w e w' H. discriminate. Qed.

Lemma only_Exceptions_mret {A} (a : A) : only_Exceptions (mret a : IO A).
Proof. intros w e w' H. discriminate. Qed.

Lemma only_Exceptions_lift {A} (o : outcome A) :
  raises_Exception o → only_Exceptions (lift o).
Proof. intros Ho w e w' [= -> _]. exact Ho. Qed.

Lemma only_Exceptions_lift_err o :
  error_is_Exception o → only_Exceptions (lift_err o).
Proof.
  intros Ho w e w'. unfold lift_err. destruct o; [|discriminate].
  by intros [= <- _].
Qed.

Lemma only_Exceptions_bind {A B} (m : IO A) (k : A → IO B) :
  only_Exceptions m →
  (∀ a w w1, m w = (Return a, w1) → only_Exceptions (k a)) →
  only_Exceptions (m ≫= k).
Proof.
  intros Hm Hk w e w' H. rewrite run_bind in H.
  destruct (m w) as [[a|e1] w1] eqn:Hmw.
  - by eapply Hk.
  - injection H as <- <-. by eapply Hm.
Qed.

Lemma only_Exceptions_for_each {A} (xs : list A) (body : A → IO unit) :
  (∀ x, only_Exceptions (body x)) → only_Exceptions (for_each xs body).
Proof.
  intros Hb. induction xs as [|x xs IH]; simpl.
  - apply only_Exceptions_mret.
  - apply only_Exceptions_bind; [apply Hb | by intros _ _ _ _].
Qed.

(** The errors of the interpreter, in indexing, [in], [len] and
    [enumerate], are instances of [Exception]. *)
Lemma socrata_shape_raises_Exception d : raises_Exception (socrata_shape d).
Proof.
  unfold socrata_shape.
  destruct (py_contains "data" d) as [[]|e] eqn:Hc; [| done |].
  - destruct (py_getitem d "data") as [x|e] eqn:Hg.
    + destruct (is_list x); [|done].
      destruct (py_len x) as [n|e] eqn:Hl; [done|].
      destruct x; simpl in Hl; by simplify_eq.
    + destruct d; simpl in Hg; try by simplify_eq.
      destruct (dict_get "data" items); by simplify_eq.
  - destruct d; simpl in Hc; by simplify_eq.
Qed.

Lemma py_getitem_raises_Exception d k : raises_Exception (py_getitem d k).
Proof.
  destruct d; simpl; try done. by destruct (dict_get k items).
Qed.

Lemma py_len_raises_Exception v : raises_Exception (py_len v).
Proof. by destruct v. Qed.

Lemma py_index_raises_Exception v i : raises_Exception (py_index v i).
Proof. destruct v; simpl; try done. by destruct (items !! i). Qed.

Lemma py_iter_raises_Exception v : raises_Exception (py_iter v).
Proof. by destruct v. Qed.

Create HintDb exn.
#[local] Hint Resolve only_Exceptions_print only_Exceptions_mret
  only_Exceptions_lift only_Exceptions_lift_err
  socrata_shape_raises_Exception py_getitem_raises_Exception
  py_len_raises_Exception py_index_raises_Exception
  py_iter_raises_Exception : exn.

Ltac only_Exceptions_steps :=
  repeat first
    [ apply only_Exceptions_bind; [|intros ? ? ? ?]
    | apply only_Exceptions_for_each; intros ?
    | solve [auto with exn] ].

Lemma only_Exceptions_read_file path : only_Exceptions (read_file path).
Proof.
  intros w e w'. unfold read_file. destruct (files w !! path); [done|].
  by intros [= <- _].
Qed.

Lemma only_Exceptions_write_file E path data :
  error_is_Exception (open_wb E path) →
  only_Exceptions (write_file E path data).
Proof.
  intros Ho w e w'. unfold write_file. destruct (open_wb E path); [|done].
  by intros [= <- _].
Qed.

Lemma only_Exceptions_cleanup E path :
  error_is_Exception (os_remove_error E path) →
  only_Exceptions (cleanup E path).
Proof.
  intros Ho. unfold cleanup. apply only_Exceptions_bind.
  - intros w e w' H. discriminate.
  - intros [] w w1 _; [|apply only_Exceptions_mret].
    apply only_Exceptions_bind; [|intros; apply only_Exceptions_print].
    intros w0 e w' . unfold os_remove.
    destruct (os_remove_error E path); [by intros [= <- _]|].
    destruct (files w0 !! path); [done|]. by intros [= <- _].
Qed.

Lemma lift_Return_inv {A} (o : outcome A) a w w1 :
  lift o w = (Return a, w1) → o = Return a.
Proof. by intros [= -> _]. Qed.

Section BodiesRaise.

Variable E : env.
Hypothesis HE : library_raises_Exceptions E.

Lemma requests_get_raises_Exception url :
  raises_Exception (requests_get E url).
Proof.
  destruct HE as (Hget & _). specialize (Hget url).
  by destruct (requests_get E url).
Qed.

Lemma response_raises_Exception url resp :
  requests_get E url = Return resp →
  error_is_Exception (raise_for_status resp) ∧ raises_Exception (json resp).
Proof.
  intros H. destruct HE as (Hget & _). specialize (Hget url).
  by rewrite H in Hget.
Qed.

Lemma access_json_api_try_only_Exceptions py_repr :
  only_Exceptions (access_json_api_try py_repr E).
Proof.
  unfold access_json_api_try.
  apply only_Exceptions_bind; [auto with exn | intros _ _ _ _].
  apply only_Exceptions_bind.
  { apply only_Exceptions_lift, requests_get_raises_Exception. }
  intros resp w w1 Hresp%lift_Return_inv.
  destruct (response_raises_Exception _ _ Hresp) as [Hst Hjson].
  only_Exceptions_steps.
  match goal with |- context [if ?b then _ else _] => destruct b end.
  - only_Exceptions_steps. unfold print_record. only_Exceptions_steps.
    unfold print_field. case_bool_decide; auto with exn.
  - only_Exceptions_steps.
Qed.

Lemma download_and_read_xml_try_only_Exceptions :
  only_Exceptions (download_and_read_xml_try E).
Proof.
  destruct HE as (_ & Hopen & Hparse & _ & Hrm).
  unfold download_and_read_xml_try. cbv zeta.
  apply only_Exceptions_bind; [auto with exn | intros _ _ _ _].
  apply only_Exceptions_bind.
  { apply only_Exceptions_lift, requests_get_raises_Exception. }
  intros resp w w1 Hresp%lift_Return_inv.
  destruct (response_raises_Exception _ _ Hresp) as [Hst Hjson].
  apply only_Exceptions_bind; [auto with exn | intros _ _ _ _].
  apply only_Exceptions_bind;
    [by apply only_Exceptions_write_file | intros _ _ _ _].
  apply only_Exceptions_bind; [auto with exn | intros _ _ _ _].
  apply only_Exceptions_bind.
  { unfold ET_parse. apply only_Exceptions_bind;
      [apply only_Exceptions_read_file | intros; auto with exn]. }
  intros root _ _ _.
  apply only_Exceptions_bind; [auto with exn | intros _ _ _ _].
  apply only_Exceptions_bind; [auto with exn | intros _ _ _ _].
  apply only_Exceptions_bind.
  { intros w0 e w' H. by rewrite sample_rows_enumerate in H. }
  intros sample _ _ _.
  apply only_Exceptions_bind;
    [by apply only_Exceptions_cleanup | intros; auto with exn].
Qed.

Lemma access_csv_with_pandas_try_only_Exceptions :
  only_Exceptions (access_csv_with_pandas_try E).
Proof.
  destruct HE as (_ & Hopen & _ & Hread & Hrm).
  unfold access_csv_with_pandas_try. cbv zeta.
  apply only_Exceptions_bind; [auto with exn | intros _ _ _ _].
  apply only_Exceptions_bind.
  { apply only_Exceptions_lift, requests_get_raises_Exception. }
  intros resp w w1 Hresp%lift_Return_inv.
  destruct (response_raises_Exception _ _ Hresp) as [Hst Hjson].
  apply only_Exceptions_bind; [auto with exn | intros _ _ _ _].
  apply only_Exceptions_bind;
    [by apply only_Exceptions_write_file | intros _ _ _ _].
  apply only_Exceptions_bind; [auto with exn | intros _ _ _ _].
  apply only_Exceptions_bind.
  { unfold pd_read_csv. apply only_Exceptions_bind;
      [apply only_Exceptions_read_file | intros data ? ? ?].
    apply only_Exceptions_lift. specialize (Hread data).
    by destruct (pd_read_csv_bytes E data). }
  intros df w2 w3 Hdf. unfold pd_read_csv in Hdf.
  apply bind_Return_inv in Hdf as (data & w4 & _ & Hdf%lift_Return_inv).
  specialize (Hread data). rewrite Hdf in Hread. destruct Hread as [Hh Hd].
  do 4 (apply only_Exceptions_bind; [auto with exn | intros _ _ _ _]).
  apply only_Exceptions_bind; [auto with exn | intros rendered _ _ _].
  do 2 (apply only_Exceptions_bind; [auto with exn | intros _ _ _ _]).
  apply only_Exceptions_bind; [auto with exn | intros described _ _ _].
  apply only_Exceptions_bind; [destruct described; auto with exn|].
  intros _ _ _ _.
  apply only_Exceptions_bind;
    [by apply only_Exceptions_cleanup | intros; auto with exn].
Qed.

End BodiesRaise.



Lemma working_env_raises_Exceptions : library_raises_Exceptions working_env.
Proof.
  split; [|by repeat split].
  intros url. simpl. by repeat case_decide.
Qed.



(** ** Claims on failure and cleanup *)





(** C6: a call of [download_and_read_xml] or [access_csv_with_pandas]
    that reaches its [return] leaves the disk without its temporary file
    and otherwise as it found it; [access_json_api] never changes the
    disk. *)
Theorem temporary_file_removed_on_return :
  (∀ E w sample w',
     download_and_read_xml E w = (Return (Some sample), w') →
     files w' !! xml_temp_file = None
     ∧ files w' = delete xml_temp_file (files w))
  ∧ (∀ E w df w',
       access_csv_with_pandas E w = (Return (Some df), w') →
       files w' !! csv_temp_file = None
       ∧ files w' = delete csv_temp_file (files w))
  ∧ (∀ py_repr E w, files (access_json_api py_repr E w).2 = files w).
Proof.
  split; [|split].
  - intros E w sample w' H.
    apply (returned_file_gone _ w sample). rewrite <- H.
    apply download_and_read_xml_outcome.
  - intros E w df w' H.
    apply (returned_file_gone _ w df). rewrite <- H.
    apply access_csv_with_pandas_outcome.
  - intros py_repr E w. apply access_json_api_keeps_files.
Qed.

Lemma temporary_file_removed_on_return_witness :
  (∃ sample w',
     download_and_read_xml xml_env empty_world = (Return (Some sample), w')
     ∧ files w' !! xml_temp_file = None)
  ∧ (∃ df w',
       access_csv_with_pandas csv_env empty_world = (Return (Some df), w')
       ∧ files w' !! csv_temp_file = None).
Proof.
  destruct temporary_file_removed_on_return as (Hxml & Hcsv & _).
  assert (download_and_read_xml xml_env empty_world
          = (Return (Some (row_record <$> take 3 (findall_row xml_document))),
             (download_and_read_xml xml_env empty_world).2)) as Hx
    by (vm_compute; reflexivity).
  assert (access_csv_with_pandas csv_env empty_world
          = (Return (Some csv_frame),
             (access_csv_with_pandas csv_env empty_world).2)) as Hc
    by (vm_compute; reflexivity).
  split.
  - do 2 eexists. split; [exact Hx|]. exact (proj1 (Hxml _ _ _ _ Hx)).
  - do 2 eexists. split; [exact Hc|]. exact (proj1 (Hcsv _ _ _ _ Hc)).
Defined.

(** C8: once the frame is loaded, the fifth line [access_csv_with_pandas]
    prints is the column line: the first [min(5, K)] column names joined
    by [", "], then ["..."], also when the frame has five columns or
    fewer and all of them are shown.  The line is there however the
    call ends; the call returns, unless a later step raises what the
    handler does not catch. *)
Theorem csv_column_line_ends_in_ellipsis E w resp df :
  requests_get E csv_url = Return resp →
  raise_for_status resp = None →
  open_wb E csv_temp_file = None →
  pd_read_csv_bytes E (content resp) = Return df →
  (∃ o fs rest,
     access_csv_with_pandas E w
     = (o,
        World fs
          (stdout w ++ csv_download_lines
           ++ [nl +:+ "CSV Pandas Access Sample:";
               "Data dimensions: " +:+ shape_str df +:+ " (rows, columns)";
               "Columns: " +:+ String.concat ", " (take 5 (columns df))
               +:+ "..."]
           ++ rest))
     ∧ match o with
       | Return _ => True
       | Raise e => ¬ is_Exception e
       end)
  ∧ length (take 5 (columns df)) = 5 `min` length (columns df)
  ∧ (length (columns df) ≤ 5 →
       columns_line df
       = "Columns: " +:+ String.concat ", " (columns df) +:+ "...").
Proof.
  intros Hget Hst Hopen Hread. split; [|split].
  - rewrite (csv_loaded E w resp df Hget Hst Hopen Hread). cbv zeta.
    unfold csv_overview_lines, columns_line.
    destruct (head3_to_string df) as [rendered|e];
      [destruct (describe_first_numeric df) as [described|e];
       [destruct (os_remove_error E csv_temp_file) as [e|]|]|];
      unfold handled;
      try (destruct (is_Exception e) eqn:He; [|apply Is_true_false in He]);
      do 3 eexists; (split; [rewrite <- ?app_assoc; simpl; reflexivity|done]).
  - apply length_take.
  - intros HK. unfold columns_line. by rewrite take_ge.
Qed.

Lemma csv_column_line_ends_in_ellipsis_witness :
  length (columns csv_frame) = 3
  ∧ columns_line csv_frame = "Columns: VIN (1-10), County, Model Year..."
  ∧ ∃ o fs rest,
      access_csv_with_pandas csv_env empty_world
      = (o,
         World fs
           ([] ++ csv_download_lines
            ++ [nl +:+ "CSV Pandas Access Sample:";
                "Data dimensions: (2, 3) (rows, columns)";
                "Columns: VIN (1-10), County, Model Year..."]
            ++ rest))
      ∧ match o with
        | Return _ => True
        | Raise e => ¬ is_Exception e
        end.
Proof.
  split; [reflexivity|]. split; [reflexivity|].
  exact (proj1 (csv_column_line_ends_in_ellipsis csv_env empty_world
                  csv_response csv_frame eq_refl eq_refl eq_refl eq_refl)).
Defined.

(** * Part V: the rest of the program *)

(** ** Calls that only print *)

Lemma says_print s : says (print s) (Return tt) [s].
Proof. by intros w. Qed.

Lemma says_lift {A} (o : outcome A) : says (lift o) o [].
Proof. intros [fs out]. unfold lift. simpl. by rewrite app_nil_r. Qed.

Lemma says_lift_err o :
  says (lift_err o)
       (match o with Some e => Raise e | None => Return tt end) [].
Proof.
  intros [fs out]. unfold lift_err. simpl. rewrite app_nil_r. by destruct o.
Qed.

Lemma says_mret {A} (a : A) : says (mret a : IO A) (Return a) [].
Proof. intros [fs out]. unfold mret, IO_ret. simpl. by rewrite app_nil_r. Qed.

Lemma says_bind {A B} (m : IO A) (k : A → IO B) a r l1 l2 :
  says m (Return a) l1 → says (k a) r l2 → says (m ≫= k) r (l1 ++ l2).
Proof.
  intros Hm Hk w. rewrite run_bind, Hm, Hk. simpl. by rewrite app_assoc.
Qed.

Lemma says_bind_raise {A B} (m : IO A) (k : A → IO B) e l :
  says m (Raise e) l → says (m ≫= k) (Raise e) l.
Proof. intros Hm w. by rewrite run_bind, Hm. Qed.

Lemma console_only_bind {A B} (m : IO A) (k : A → IO B) :
  console_only m → (∀ a, console_only (k a)) → console_only (m ≫= k).
Proof.
  intros ([a|e] & l1 & Hm) Hk.
  - destruct (Hk a) as (r & l2 & Hka). exists r, (l1 ++ l2).
    by apply says_bind with a.
  - exists (Raise e), l1. by apply says_bind_raise.
Qed.

Lemma console_only_for_each {A} (xs : list A) (body : A → IO unit) :
  (∀ x, console_only (body x)) → console_only (for_each xs body).
Proof.
  intros Hb. induction xs as [|x xs IH]; simpl.
  - eexists _, _. apply says_mret.
  - apply console_only_bind; [apply Hb | by intros _].
Qed.

Lemma console_only_try_except {A} (body : IO A) (handler : exn → IO A) :
  console_only body →
  (∀ e, console_only (handler e)) →
  console_only (try_except body handler).
Proof.
  intros ([a|e] & l1 & Hb) Hh.
  - exists (Return a), l1. intros w. unfold try_except. by rewrite Hb.
  - destruct (is_Exception e) eqn:He.
    + destruct (Hh e) as (o & l2 & Hhe). exists o, (l1 ++ l2).
      intros w. unfold try_except. rewrite Hb, He, Hhe. simpl.
      by rewrite app_assoc.
    + exists (Raise e), l1. intros w. unfold try_except. by rewrite Hb, He.
Qed.

Create HintDb says.
#[local] Hint Resolve says_print says_lift says_lift_err says_mret : says.

Ltac console_only_steps :=
  repeat first
    [ apply console_only_bind; [|intros ?]
    | apply console_only_for_each; intros ?
    | solve [eexists _, _; eauto with says] ].

Lemma access_json_api_says py_repr E :
  ∃ o lines, says (access_json_api py_repr E) o lines.
Proof.
  apply console_only_try_except.
  - unfold access_json_api_try. console_only_steps.
    match goal with |- context [if ?b then _ else _] => destruct b end.
    + console_only_steps. unfold print_record. console_only_steps.
      unfold print_field. case_bool_decide; console_only_steps.
    + console_only_steps.
  - intros e. console_only_steps.
Qed.

(** ** access_json_api: every way through *)

Section JsonPaths.

Variables (py_repr : value → string) (E : env) (w : world).

Lemma json_shape_raises resp d e :
  requests_get E api_url = Return resp →
  raise_for_status resp = None →
  json resp = Return d →
  socrata_shape d = Raise e →
  access_json_api py_repr E w
  = (Return None,
     World (files w) (stdout w ++ json_banner ++ [json_error_line e])).
Proof.
  intros Hget Hst Hjson Hshape.
  unfold access_json_api, try_except, access_json_api_try.
  io_print. io_lift Hget. io_lift_err Hst. io_lift Hjson. io_print.
  io_lift Hshape.
  pose proof (socrata_shape_raises_Exception d) as He.
  rewrite Hshape in He. apply Is_true_true in He. rewrite He.
  io_print. unfold mret, IO_ret, json_banner.
  by rewrite <- !app_assoc.
Qed.

Lemma json_shape_false resp d :
  requests_get E api_url = Return resp →
  raise_for_status resp = None →
  json resp = Return d →
  socrata_shape d = Return false →
  access_json_api py_repr E w
  = (Return (Some d),
     World (files w)
       (stdout w ++ json_banner
        ++ ["JSON data structure is different than expected. Sample output:";
            preview (py_str py_repr d)])).
Proof.
  intros Hget Hst Hjson Hshape.
  unfold access_json_api, try_except, access_json_api_try.
  io_print. io_lift Hget. io_lift_err Hst. io_lift Hjson. io_print.
  io_lift Hshape. io_print. io_print. unfold mret, IO_ret, json_banner.
  by rewrite <- !app_assoc.
Qed.

(** With the expected shape, all is decided by the loop over the
    records. *)
Lemma json_records_run resp kvs recs :
  requests_get E api_url = Return resp →
  raise_for_status resp = None →
  json resp = Return (PyDict kvs) →
  dict_get "data" kvs = Some (PyList recs) →
  recs ≠ [] →
  access_json_api py_repr E w
  = match for_each (seq 0 (3 `min` length recs))
            (print_record py_repr (PyList recs))
            (World (files w)
               (stdout w ++ json_banner
                ++ ["Total records: " +:+ pretty (length recs)])) with
    | (Return _, w') => (Return (Some (PyDict kvs)), w')
    | (Raise e, w') => handled json_error_line e (files w') (stdout w')
    end.
Proof.
  intros Hget Hst Hjson Hdata Hne.
  unfold access_json_api, try_except, access_json_api_try.
  io_print. io_lift Hget. io_lift_err Hst. io_lift Hjson. io_print.
  rewrite run_bind. unfold lift at 1.
  rewrite (socrata_shape_nonempty _ _ Hdata Hne). io_red.
  rewrite run_bind. unfold lift at 1. simpl py_getitem. rewrite Hdata.
  io_red. rewrite run_bind. unfold lift at 1. simpl py_len. io_red.
  io_print. rewrite run_bind. unfold json_banner.
  rewrite <- !app_assoc. simpl.
  destruct (for_each _ _ _) as [[[]|e] w']; [done|].
  unfold handled. destruct (is_Exception e); [|by destruct w'].
  io_print. done.
Qed.

End JsonPaths.

Lemma for_each_app_run {A} (xs ys : list A) (body : A → IO unit) w w1 :
  for_each xs body w = (Return tt, w1) →
  for_each (xs ++ ys) body w = for_each ys body w1.
Proof.
  revert w. induction xs as [|x xs IH]; intros w; simpl.
  - by intros [= <-].
  - intros H. apply bind_Return_inv in H as ([] & w' & Hx & H).
    rewrite run_bind, Hx. by apply IH.
Qed.

(** The loop stops at the first record that cannot be iterated, after
    that record's heading. *)
Lemma print_records_stop py_repr recs k r e w :
  k < 3 →
  recs !! k = Some r →
  py_iter r = Raise e →
  Forall is_iterable (take k recs) →
  for_each (seq 0 (3 `min` length recs)) (print_record py_repr (PyList recs)) w
  = (Raise e,
     World (files w)
       (stdout w
        ++ concat (imap (record_lines py_repr) (json_sample (take k recs)))
        ++ [nl +:+ "Record #" +:+ pretty (k + 1) +:+ ":"])).
Proof.
  intros Hk Hr He Hiter.
  pose proof (lookup_lt_Some _ _ _ Hr) as Hlen.
  replace (3 `min` length recs) with (k + S (3 `min` length recs - S k))
    by lia.
  rewrite seq_app.
  assert (length (take k recs) = k) as Hlk by (rewrite length_take; lia).
  rewrite (for_each_app_run _ _ _ w
             (World (files w)
                (stdout w
                 ++ concat (imap (record_lines py_repr)
                              (json_sample (take k recs)))))).
  - simpl. rewrite run_bind. unfold print_record.
    rewrite run_bind. unfold lift at 1. simpl py_index. rewrite Hr. io_red.
    io_print. rewrite run_bind. unfold lift at 1. rewrite He. io_red.
    by rewrite <- app_assoc.
  - rewrite <- Hlk at 1.
    rewrite (for_each_seq_emits (take k recs) _
               (λ i r, record_lines py_repr i
                         (take 5 (enumerate (fields_of r))))).
    + unfold json_sample. rewrite take_take, imap_fmap.
      replace (3 `min` k) with k by lia. reflexivity.
    + intros i x w' Hi. apply lookup_take_Some in Hi as [Hi Hlt].
      simpl. apply print_record_run; [done|].
      rewrite Forall_forall in Hiter. apply Hiter.
      apply list_elem_of_lookup. exists i. by rewrite lookup_take_lt.
Qed.

Lemma first_not_iterable (l : list value) :
  forallb is_iterable l = false →
  ∃ k r e, l !! k = Some r ∧ py_iter r = Raise e
           ∧ Forall is_iterable (take k l).
Proof.
  induction l as [|x l IH]; simpl; [done|].
  destruct (is_iterable x) eqn:Hx; simpl.
  - intros (k & r & e & Hk & He & Hall)%IH.
    exists (S k), r, e. split; [done|]. split; [done|].
    simpl. constructor; [by rewrite Hx | done].
  - intros _. unfold is_iterable in Hx.
    destruct (py_iter x) as [|e] eqn:He; [done|].
    exists 0, x, e. split; [done|]. split; [done|]. constructor.
Qed.

Lemma json_fetch_error_run py_repr E e w :
  json_fetch_error E = Some e →
  access_json_api py_repr E w
  = handled json_error_line e (files w)
      (stdout w ++ ["Accessing JSON data from API: " +:+ api_url]).
Proof.
  unfold json_fetch_error. intros He.
  unfold access_json_api, try_except, access_json_api_try. io_print.
  rewrite run_bind. unfold lift at 1.
  destruct (requests_get E api_url) as [resp|e1]; io_red.
  - rewrite run_bind. unfold lift_err at 1.
    destruct (raise_for_status resp) as [e2|]; io_red.
    + injection He as ->. io_handled.
    + rewrite run_bind. unfold lift at 1.
      destruct (json resp) as [d|e3]; [done|]. io_red.
      injection He as ->. io_handled.
  - injection He as ->. io_handled.
Qed.

(** X1: when the GET fails or the body is not JSON, with an exception
    that is an instance of [Exception], [access_json_api] returns [None]
    having printed only the line that names the URL and the error line
    with the exception's message; the disk is as it was.  An exception
    of another class goes on to the caller after the URL line. *)
Theorem access_json_api_fetch_error py_repr E e :
  json_fetch_error E = Some e →
  (is_Exception e →
   says (access_json_api py_repr E) (Return None)
        ["Accessing JSON data from API: " +:+ api_url; json_error_line e])
  ∧ (¬ is_Exception e →
     says (access_json_api py_repr E) (Raise e)
          ["Accessing JSON data from API: " +:+ api_url]).
Proof.
  intros He. split; intros Hc w; rewrite (json_fetch_error_run _ _ _ _ He).
  - rewrite handled_Exception by done. by rewrite <- app_assoc.
  - by rewrite handled_other.
Qed.

Lemma access_json_api_fetch_error_witness :
  json_fetch_error not_found_env = Some http_404
  ∧ access_json_api repr_plain not_found_env used_world
    = (Return None,
       World (files used_world)
         (stdout used_world
          ++ ["Accessing JSON data from API: " +:+ api_url;
              json_error_line http_404])).
Proof.
  split; [reflexivity|].
  exact (proj1 (access_json_api_fetch_error repr_plain not_found_env
                  http_404 eq_refl) I used_world).
Defined.

(** X2: which decoded documents come back.  After a successful GET whose
    body decodes to [d], [access_json_api] returns [d] when [d] is an
    object (unless one of the first three records of its ["data"] list
    cannot be iterated), a list that does not hold the string ["data"],
    or a string that does not contain ["data"]; in every other case
    ([null], a number, a boolean, ...) it returns [None]. *)
Theorem access_json_api_returns_document py_repr E w resp d :
  requests_get E api_url = Return resp →
  raise_for_status resp = None →
  json resp = Return d →
  (access_json_api py_repr E w).1
  = Return (if json_accepts d then Some d else None).
Proof.
  intros Hget Hst Hjson.
  destruct d as [| b | n | x | s | vs | kvs].
  1-4: by rewrite (json_shape_raises py_repr E w resp _ _ Hget Hst Hjson
                     eq_refl).
  - unfold json_accepts. destruct (index 0 "data" s) as [i|] eqn:Hi.
    + erewrite json_shape_raises; [done..|].
      unfold socrata_shape. simpl. by rewrite Hi.
    + erewrite json_shape_false; [done..|].
      unfold socrata_shape. simpl. rewrite Hi.
      by rewrite bool_decide_eq_false_2 by (by intros [? ?]).
  - unfold json_accepts.
    destruct (existsb is_data_string vs) eqn:Hvs.
    + erewrite json_shape_raises; [done..|].
      unfold socrata_shape. simpl. unfold is_data_string in Hvs.
      by rewrite Hvs.
    + erewrite json_shape_false; [done..|].
      unfold socrata_shape. simpl. unfold is_data_string in Hvs.
      by rewrite Hvs.
  - unfold json_accepts.
    destruct (dict_get "data" kvs) as [data|] eqn:Hdata.
    2: { erewrite json_shape_false; [done..|].
         unfold socrata_shape. simpl. rewrite Hdata.
         by rewrite bool_decide_eq_false_2 by (by intros [? ?]). }
    destruct (decide (is_list data)) as [Hl|Hl].
    2: { erewrite json_shape_false; [by destruct data|done..|].
         unfold socrata_shape. simpl. rewrite Hdata.
         rewrite bool_decide_eq_true_2 by eauto. simpl.
         by destruct data. }
    destruct data as [| | | | | recs |]; try done.
    destruct recs as [|r0 recs'] eqn:Hrecs.
    { erewrite json_shape_false; [done..|].
      by apply socrata_shape_empty. }
    rewrite <- Hrecs in *.
    assert (recs ≠ []) as Hne by (by rewrite Hrecs).
    rewrite (json_records_run py_repr E w resp kvs recs Hget Hst Hjson
               Hdata Hne).
    destruct (forallb is_iterable (take 3 recs)) eqn:Hall.
    + rewrite <- (length_take recs 3).
      rewrite (for_each_seq_emits (take 3 recs) _
                 (λ i r, record_lines py_repr i
                           (take 5 (enumerate (fields_of r))))); [done|].
      intros i r w' Hi. simpl.
      pose proof Hi as Hi'. apply lookup_take_Some in Hi' as [Hi' Hlt].
      apply print_record_run; [done|].
      apply Is_true_true. apply forallb_forall with (x := r) in Hall; [done|].
      apply list_elem_of_In, list_elem_of_lookup. by exists i.
    + apply first_not_iterable in Hall as (k & r & e & Hk & He & Hbefore).
      pose proof Hk as Hk'. apply lookup_take_Some in Hk' as [Hk' Hlt].
      rewrite take_take in Hbefore.
      replace (k `min` 3) with k in Hbefore by lia.
      rewrite (print_records_stop py_repr recs k r e _ Hlt Hk' He Hbefore).
      rewrite handled_Exception; [done|].
      pose proof (py_iter_raises_Exception r) as Hc. by rewrite He in Hc.
Qed.

Lemma access_json_api_returns_document_witness :
  json_accepts (PyDict spec_document) = true
  ∧ (access_json_api repr_plain spec_env empty_world).1
    = Return (Some (PyDict spec_document))
  ∧ json_accepts (PyDict mixed_document) = false
  ∧ (access_json_api repr_plain mixed_env empty_world).1 = Return None.
Proof.
  split; [reflexivity|]. split; [|split; [reflexivity|]].
  - exact (access_json_api_returns_document repr_plain spec_env empty_world
             spec_response (PyDict spec_document) eq_refl eq_refl eq_refl).
  - exact (access_json_api_returns_document repr_plain mixed_env empty_world
             (json_response (PyDict mixed_document)) (PyDict mixed_document)
             eq_refl eq_refl eq_refl).
Defined.

(** X3: the records before the first one that cannot be iterated are
    printed in full, then the heading of that one, then the error line;
    the later records are not looked at and [None] is returned. *)
Theorem access_json_api_stops_at_bad_record py_repr E w resp kvs recs k r e :
  requests_get E api_url = Return resp →
  raise_for_status resp = None →
  json resp = Return (PyDict kvs) →
  dict_get "data" kvs = Some (PyList recs) →
  k < 3 →
  recs !! k = Some r →
  py_iter r = Raise e →
  Forall is_iterable (take k recs) →
  access_json_api py_repr E w
  = (Return None,
     World (files w)
       (stdout w ++ json_banner
        ++ ["Total records: " +:+ pretty (length recs)]
        ++ concat (imap (record_lines py_repr) (json_sample (take k recs)))
        ++ [nl +:+ "Record #" +:+ pretty (k + 1) +:+ ":";
            json_error_line e])).
Proof.
  intros Hget Hst Hjson Hdata Hk Hr He Hbefore.
  assert (recs ≠ []) as Hne by (by intros ->).
  rewrite (json_records_run py_repr E w resp kvs recs Hget Hst Hjson
             Hdata Hne).
  rewrite (print_records_stop py_repr recs k r e _ Hk Hr He Hbefore).
  rewrite handled_Exception.
  - simpl. by rewrite <- !app_assoc.
  - pose proof (py_iter_raises_Exception r) as Hc. by rewrite He in Hc.
Qed.

Lemma access_json_api_stops_at_bad_record_witness :
  access_json_api repr_plain mixed_env empty_world
  = (Return None,
     World ∅
       ([] ++ json_banner ++ ["Total records: 3"]
        ++ [nl +:+ "Record #1:"; "  Field 0: a"; "  Field 1: 1"]
        ++ [nl +:+ "Record #2:";
            "Error accessing JSON API: 'int' object is not iterable"])).
Proof.
  refine (access_json_api_stops_at_bad_record repr_plain mixed_env
            empty_world (json_response (PyDict mixed_document))
            mixed_document mixed_records 1 (PyInt 7) _
            eq_refl eq_refl eq_refl eq_refl _ eq_refl eq_refl _).
  - lia.
  - repeat constructor.
Defined.

(** X4: [access_json_api] does not depend on the world it starts from:
    whatever is on disk and whatever was printed before, it returns the
    same value, keeps the earlier output and adds the same lines. *)
Theorem access_json_api_same_in_every_world py_repr E w1 w2 :
  (access_json_api py_repr E w1).1 = (access_json_api py_repr E w2).1
  ∧ take (length (stdout w1)) (stdout (access_json_api py_repr E w1).2)
    = stdout w1
  ∧ drop (length (stdout w1)) (stdout (access_json_api py_repr E w1).2)
    = drop (length (stdout w2)) (stdout (access_json_api py_repr E w2).2).
Proof.
  destruct (access_json_api_says py_repr E) as (r & lines & H).
  rewrite !H. simpl. split; [done|].
  by rewrite take_app_length, !drop_app_length.
Qed.

Lemma string_length_app (a b : string) :
  String.length (a +:+ b) = String.length a + String.length b.
Proof. induction a as [|c a IH]; simpl; [done | by rewrite IH]. Qed.

Lemma preview_length s : String.length (preview s) ≤ 503.
Proof.
  unfold preview. case_bool_decide as Hs; [|lia].
  rewrite string_length_app.
  destruct (substring_prefix 500 s) as [-> _]; [lia | simpl; lia].
Qed.

(** X5: an object that has no ["data"], or whose ["data"] is not a list,
    is not an error: [access_json_api] prints the notice and a preview
    of at most 503 characters, and returns the document. *)
Theorem access_json_api_unexpected_shape py_repr E w resp kvs :
  requests_get E api_url = Return resp →
  raise_for_status resp = None →
  json resp = Return (PyDict kvs) →
  (∀ recs, dict_get "data" kvs ≠ Some (PyList recs)) →
  access_json_api py_repr E w
  = (Return (Some (PyDict kvs)),
     World (files w)
       (stdout w ++ json_banner
        ++ ["JSON data structure is different than expected. Sample output:";
            preview (py_repr (PyDict kvs))]))
  ∧ String.length (preview (py_repr (PyDict kvs))) ≤ 503.
Proof.
  intros Hget Hst Hjson Hdata. split; [|apply preview_length].
  apply (json_shape_false py_repr E w resp (PyDict kvs) Hget Hst Hjson).
  unfold socrata_shape. simpl.
  destruct (dict_get "data" kvs) as [data|] eqn:Hd.
  - rewrite bool_decide_eq_true_2 by eauto. simpl.
    destruct data; try done. by destruct (Hdata items).
  - by rewrite bool_decide_eq_false_2 by (by intros [? ?]).
Qed.

Lemma access_json_api_unexpected_shape_witness :
  access_json_api repr_plain no_data_env empty_world
  = (Return (Some (PyDict no_data_document)),
     World ∅
       ([] ++ json_banner
        ++ ["JSON data structure is different than expected. Sample output:";
            preview "{'meta': {}, 'error': True}"])).
Proof.
  refine (proj1 (access_json_api_unexpected_shape repr_plain no_data_env
                   empty_world _ no_data_document eq_refl eq_refl eq_refl _)).
  intros recs. discriminate.
Defined.

(** ** download_and_read_xml: every way through *)

(** X6: the whole of a successful run.  The console gets the two
    download lines, the count of all rows found, the heading, the lines
    of the first three rows (five fields at most each) and the removal
    line; the result is the list of records, empty when the document
    has no [row]; the disk is as before, less the temporary file. *)
Theorem download_and_read_xml_success E w resp root :
  requests_get E xml_url = Return resp →
  raise_for_status resp = None →
  open_wb E xml_temp_file = None →
  ET_parse_bytes E (content resp) = Return root →
  os_remove_error E xml_temp_file = None →
  download_and_read_xml E w
  = (Return (Some (row_record <$> take 3 (findall_row root))),
     World (delete xml_temp_file (files w))
       (stdout w ++ xml_download_lines
        ++ ["Found " +:+ pretty (length (findall_row root))
            +:+ " records in XML file";
            nl +:+ "XML File Access Sample:"]
        ++ concat (imap xml_record_lines (take 3 (findall_row root)))
        ++ [removed_line xml_temp_file]))
  ∧ (findall_row root = [] →
       (download_and_read_xml E w).1 = Return (Some [])).
Proof.
  intros Hget Hst Hopen Hparse Hrm.
  rewrite (xml_parsed E w resp root Hget Hst Hopen Hparse), Hrm.
  unfold xml_report_lines, xml_sample_lines. split.
  - by rewrite <- !app_assoc.
  - by intros ->.
Qed.

Lemma download_and_read_xml_success_witness :
  (download_and_read_xml working_env used_world).1
  = Return (Some (row_record <$> [Element "row" None [tesla; nissan];
                                  tesla; nissan]))
  ∧ files (download_and_read_xml working_env used_world).2
    = delete xml_temp_file (files used_world).
Proof.
  pose proof (proj1 (download_and_read_xml_success working_env used_world
                       xml_response xml_document
                       eq_refl eq_refl eq_refl eq_refl eq_refl)) as H.
  rewrite H. split; reflexivity.
Defined.

(** X7: when only [os.remove] fails (with an instance of [Exception],
    as [OSError] is), the sample has been printed in full, but the
    exception reaches the handler: the error line is added, [None] is
    returned instead of the records, and the file stays on disk. *)
Theorem download_and_read_xml_remove_fails E w resp root e :
  requests_get E xml_url = Return resp →
  raise_for_status resp = None →
  open_wb E xml_temp_file = None →
  ET_parse_bytes E (content resp) = Return root →
  os_remove_error E xml_temp_file = Some e →
  is_Exception e →
  download_and_read_xml E w
  = (Return None,
     World (<[xml_temp_file := content resp]> (files w))
       (stdout w ++ xml_download_lines ++ xml_report_lines root
        ++ [xml_error_line e])).
Proof.
  intros Hget Hst Hopen Hparse Hrm He.
  rewrite (xml_parsed E w resp root Hget Hst Hopen Hparse), Hrm.
  rewrite handled_Exception by done. by rewrite <- !app_assoc.
Qed.

Lemma download_and_read_xml_remove_fails_witness :
  (download_and_read_xml locked_env empty_world).1 = Return None
  ∧ files (download_and_read_xml locked_env empty_world).2 !! xml_temp_file
    = Some (content xml_response)
  ∧ last (stdout (download_and_read_xml locked_env empty_world).2)
    = Some (xml_error_line permission_error).
Proof.
  rewrite (download_and_read_xml_remove_fails locked_env empty_world
             xml_response xml_document permission_error
             eq_refl eq_refl eq_refl eq_refl eq_refl I).
  split; [reflexivity|]. split; [apply lookup_insert_eq | reflexivity].
Defined.

(** ** Tags and records *)

(** X8: the key recorded for a tag has no ['}'] in it, is an ending of
    the tag, and is left alone by a second stripping; a tag without
    ['}'] is recorded as it is, and a tag that ends in ['}'] is
    recorded under the empty key. *)
Theorem strip_namespace_result t :
  contains_char "}" (strip_namespace t) = false
  ∧ (∃ p, t = p +:+ strip_namespace t)
  ∧ strip_namespace (strip_namespace t) = strip_namespace t
  ∧ (contains_char "}" t = false → strip_namespace t = t)
  ∧ strip_namespace (t +:+ "}") = "".
Proof.
  assert (contains_char "}" (strip_namespace t) = false) as Hno.
  { remember (strip_namespace t) as b eqn:Hb.
    by apply strip_namespace_bare in Hb as [[Ht ->]|(p & _ & Hb)]. }
  split; [done|]. split; [|split; [|split]].
  - remember (strip_namespace t) as b eqn:Hb.
    apply strip_namespace_bare in Hb as [[Ht ->]|(p & Hp & _)].
    + by exists "".
    + exists (p +:+ "}"). subst t. clear.
      induction p as [|c p IH]; [done|].
      change (String c (p +:+ String "}" b) = String c ((p +:+ "}") +:+ b)).
      by rewrite IH.
  - symmetry. apply strip_namespace_bare. by left.
  - intros Ht. symmetry. apply strip_namespace_bare. by left.
  - by apply strip_namespace_after.
Qed.

Lemma dict_set_NoDup {V} k (v : V) d :
  NoDup d.*1 → NoDup (dict_set k v d).*1.
Proof.
  induction d as [|[k0 v0] d IH]; simpl.
  - intros _. apply NoDup_singleton.
  - rewrite NoDup_cons. intros [Hk0 Hd].
    case_decide; simpl; rewrite NoDup_cons.
    + by subst k0.
    + split; [|by apply IH]. rewrite dict_set_keys. intros [->|?]; done.
Qed.

Lemma foldl_set_field_NoDup cs d :
  NoDup d.*1 → NoDup (foldl set_field d cs).*1.
Proof.
  revert d. induction cs as [|c cs IH]; intros d Hd; simpl; [done|].
  apply IH. by apply dict_set_NoDup.
Qed.

(** What a record holds under [k]: the text of the last child so named,
    or what it held before when there is none. *)
Lemma foldl_set_field_get cs d k :
  dict_get k (foldl set_field d cs)
  = match last (filter (λ child, strip_namespace (tag child) = k) cs) with
    | Some child => Some (text child)
    | None => dict_get k d
    end.
Proof.
  revert d. induction cs as [|c cs IH]; intros d; simpl; [done|].
  rewrite IH, filter_cons. case_decide as Hc.
  - rewrite last_cons.
    destruct (last (filter _ cs)); [done|].
    unfold set_field. rewrite Hc. apply dict_get_set.
  - destruct (last (filter _ cs)); [done|].
    unfold set_field. by rewrite dict_get_set_ne.
Qed.

(** X9: the record the inner loop builds for a row.  The loop counts
    [min(5, number of children)] fields; whatever the tags are, the
    record has distinct keys, five entries at most, and under every key
    the text of the last of the first five children with that bare tag
    (nothing under a key no such child has).  The keys are the bare
    tags of the spec: what follows the last ['}'] of a tag. *)
Theorem row_fields_record row w :
  (row_fields (children row) [] 0 w).1
  = Return (row_record row, 5 `min` length (children row))
  ∧ NoDup (row_record row).*1
  ∧ length (row_record row) ≤ 5
  ∧ (∀ k, dict_get k (row_record row)
          = text <$> last (filter (λ child, strip_namespace (tag child) = k)
                                  (take 5 (children row))))
  ∧ (∀ k, k ∈ (row_record row).*1
          ↔ ∃ child, child ∈ take 5 (children row) ∧ bare_tag (tag child) k)
  ∧ (∀ pre c post k,
       take 5 (children row) = pre ++ c :: post →
       bare_tag (tag c) k →
       Forall (λ child, ¬ bare_tag (tag child) k) post →
       dict_get k (row_record row) = Some (text c)).
Proof.
  split; [|split; [|split; [|split; [|split]]]].
  - rewrite row_fields_run. simpl. unfold row_record.
    by rewrite length_take.
  - apply foldl_set_field_NoDup. constructor.
  - unfold row_record.
    etrans; [apply foldl_set_field_length|].
    rewrite length_take. cbn [length]. lia.
  - intros k. unfold row_record. rewrite foldl_set_field_get.
    by destruct (last _).
  - intros k. unfold row_record. rewrite foldl_set_field_keys. split.
    + intros [[]%elem_of_nil|(c & Hc & <-)].
      exists c. by rewrite strip_namespace_bare.
    + intros (c & Hc & ->%strip_namespace_bare). right. by exists c.
  - intros pre c post k Hsplit Hc%strip_namespace_bare Hpost.
    unfold row_record. rewrite Hsplit, foldl_app. simpl.
    rewrite foldl_set_field_other.
    + unfold set_field. rewrite <- Hc. apply dict_get_set.
    + eapply Forall_impl; [exact Hpost|]. intros child Hchild Heq.
      apply Hchild, strip_namespace_bare. by rewrite Heq.
Qed.

Lemma row_fields_record_witness :
  (row_fields (children namespaced_row) [] 0 empty_world).1
  = Return ([("f", Some "2"); ("g", Some "x"); ("h", Some "y")], 4)
  ∧ dict_get "f" (row_record namespaced_row) = Some (Some "2").
Proof.
  pose proof (row_fields_record namespaced_row empty_world)
    as (Hrun & _ & _ & _ & _ & Hlast).
  split; [exact Hrun|].
  apply (Hlast [Element "{urn:a}f" (Some "1") []; Element "g" (Some "x") []]
           (Element "{urn:b}f" (Some "2") [])
           [Element "{urn:b}h" (Some "y") []] "f" eq_refl).
  - right. exists "{urn:b". split; reflexivity.
  - repeat constructor.
    intros H%strip_namespace_bare. vm_compute in H. discriminate H.
Defined.

(** ** access_csv_with_pandas: every way through *)

Lemma string_app_assoc (a b c : string) :
  (a +:+ b) +:+ c = a +:+ (b +:+ c).
Proof.
  induction a as [|x a IH]; [done|].
  change (String x ((a +:+ b) +:+ c) = String x (a +:+ (b +:+ c))).
  by rewrite IH.
Qed.

(** X10: the whole of a successful run.  The console gets the two
    download lines, the heading, the dimensions [(M, K)], the column
    line, the rendering of the first three rows, the statistics heading
    (followed by the statistics only when a numeric column exists) and
    the removal line; the frame is returned; the disk is as before,
    less the temporary file. *)
Theorem access_csv_with_pandas_success E w resp df rendered described :
  requests_get E csv_url = Return resp →
  raise_for_status resp = None →
  open_wb E csv_temp_file = None →
  pd_read_csv_bytes E (content resp) = Return df →
  head3_to_string df = Return rendered →
  describe_first_numeric df = Return described →
  os_remove_error E csv_temp_file = None →
  access_csv_with_pandas E w
  = (Return (Some df),
     World (delete csv_temp_file (files w))
       (stdout w ++ csv_download_lines
        ++ [nl +:+ "CSV Pandas Access Sample:";
            "Data dimensions: (" +:+ pretty (nrows df) +:+ ", "
            +:+ pretty (length (columns df)) +:+ ") (rows, columns)";
            columns_line df;
            nl +:+ "First 3 records:";
            rendered;
            nl +:+ "Basic statistics (first numeric column):"]
        ++ match described with Some stats => [stats] | None => [] end
        ++ [removed_line csv_temp_file])).
Proof.
  intros Hget Hst Hopen Hread Hhead Hdesc Hrm.
  rewrite (csv_loaded E w resp df Hget Hst Hopen Hread). cbv zeta.
  rewrite Hhead, Hdesc, Hrm. unfold csv_overview_lines, stats_lines.
  rewrite <- !app_assoc. simpl. do 3 f_equal.
  unfold shape_str. by rewrite !string_app_assoc.
Qed.

Lemma access_csv_with_pandas_success_witness :
  (access_csv_with_pandas working_env used_world).1 = Return (Some csv_frame)
  ∧ files (access_csv_with_pandas working_env used_world).2
    = delete csv_temp_file (files used_world)
  ∧ last (stdout (access_csv_with_pandas working_env used_world).2)
    = Some (removed_line csv_temp_file).
Proof.
  rewrite (access_csv_with_pandas_success working_env used_world
             csv_response csv_frame _ _
             eq_refl eq_refl eq_refl eq_refl eq_refl eq_refl eq_refl).
  repeat split.
Defined.

(** ** The downloaded file after a failure *)

(** X11: in both file fetchers, once the GET has succeeded and the body
    has been written, every failure (in the parse, in the report, in the
    removal) ends in [None] with the temporary file on disk, holding the
    body of the response; no other file has changed. *)
Theorem late_failure_leaves_download E w resp :
  raise_for_status resp = None →
  (requests_get E xml_url = Return resp →
   open_wb E xml_temp_file = None →
   (download_and_read_xml E w).1 = Return None →
   files (download_and_read_xml E w).2
   = <[xml_temp_file := content resp]> (files w))
  ∧ (requests_get E csv_url = Return resp →
     open_wb E csv_temp_file = None →
     (access_csv_with_pandas E w).1 = Return None →
     files (access_csv_with_pandas E w).2
     = <[csv_temp_file := content resp]> (files w)).
Proof.
  intros Hst. split; intros Hget Hopen.
  - destruct (ET_parse_bytes E (content resp)) as [root|e] eqn:Hparse.
    + rewrite (xml_parsed E w resp root Hget Hst Hopen Hparse).
      destruct (os_remove_error E xml_temp_file); [|done].
      intros _. apply handled_files.
    + rewrite (xml_parse_raises E w resp e Hget Hst Hopen Hparse).
      intros _. apply handled_files.
  - destruct (pd_read_csv_bytes E (content resp)) as [df|e] eqn:Hread.
    + rewrite (csv_loaded E w resp df Hget Hst Hopen Hread). cbv zeta.
      destruct (head3_to_string df); [|intros _; apply handled_files].
      destruct (describe_first_numeric df);
        [|intros _; apply handled_files].
      destruct (os_remove_error E csv_temp_file); [|done].
      intros _. apply handled_files.
    + rewrite (csv_read_raises E w resp e Hget Hst Hopen Hread).
      intros _. apply handled_files.
Qed.

Lemma late_failure_leaves_download_witness :
  files (download_and_read_xml locked_env used_world).2
  = <[xml_temp_file := content xml_response]> (files used_world)
  ∧ files (access_csv_with_pandas truncated_env used_world).2
    = <[csv_temp_file := content truncated_response]> (files used_world).
Proof.
  split.
  - exact (proj1 (late_failure_leaves_download locked_env used_world
                    xml_response eq_refl) eq_refl eq_refl eq_refl).
  - exact (proj2 (late_failure_leaves_download truncated_env used_world
                    truncated_response eq_refl) eq_refl eq_refl eq_refl).
Defined.

(** X12: a file fetcher touches no file but its own temporary file:
    every other name on disk holds after the call what it held before,
    however the call ends. *)
Theorem other_files_untouched E w path :
  (path ≠ xml_temp_file →
   files (download_and_read_xml E w).2 !! path = files w !! path)
  ∧ (path ≠ csv_temp_file →
     files (access_csv_with_pandas E w).2 !! path = files w !! path).
Proof.
  split; intros Hpath.
  - destruct (download_and_read_xml_outcome E w); simpl;
      by rewrite ?lookup_insert_ne, ?lookup_delete_ne.
  - destruct (access_csv_with_pandas_outcome E w); simpl;
      by rewrite ?lookup_insert_ne, ?lookup_delete_ne.
Qed.

Lemma other_files_untouched_witness :
  files (download_and_read_xml working_env used_world).2 !! "notes.txt"
  = Some (ascii_bytes "keep me")
  ∧ files (access_csv_with_pandas truncated_env used_world).2 !! "notes.txt"
    = Some (ascii_bytes "keep me").
Proof.
  pose proof (other_files_untouched working_env used_world "notes.txt")
    as [Hxml _].
  pose proof (other_files_untouched truncated_env used_world "notes.txt")
    as [_ Hcsv].
  rewrite Hxml, Hcsv by discriminate. split; reflexivity.
Defined.

(** ** Calls in a row *)

Lemma apply_effect_idemp temp_file eff fs :
  apply_effect temp_file eff (apply_effect temp_file eff fs)
  = apply_effect temp_file eff fs.
Proof.
  destruct eff; simpl; [done | apply insert_insert_eq |].
  apply delete_id, lookup_delete_eq.
Qed.

Lemma apply_effect_other temp_file eff fs path :
  path ≠ temp_file → apply_effect temp_file eff fs !! path = fs !! path.
Proof.
  intros Hp. destruct eff; simpl; [done | |].
  - by rewrite lookup_insert_ne.
  - by rewrite lookup_delete_ne.
Qed.

Lemma behaves_handled {A} (m : IO (option A)) temp_file error_line e eff
    lines :
  (∀ w, m w = handled error_line e (apply_effect temp_file eff (files w))
                (stdout w ++ lines)) →
  eff ≠ Removed →
  ∃ o eff' lines',
    behaves m temp_file o eff' lines'
    ∧ (eff' = Removed ↔ ∃ r, o = Return (Some r)).
Proof.
  intros Hm Hne. destruct (is_Exception e) eqn:He.
  - exists (Return None), eff, (lines ++ [error_line e]). split.
    + intros w. rewrite Hm. unfold handled. by rewrite He, app_assoc.
    + split; [done | by intros [r [=]]].
  - exists (Raise e), eff, lines. split.
    + intros w. rewrite Hm. unfold handled. by rewrite He.
    + split; [done | by intros [r [=]]].
Qed.

(** From every world a file fetcher ends the same way, prints the same
    lines and does the same to its temporary file, which is gone
    exactly when the call returns a result. *)
Lemma download_and_read_xml_behaves E :
  ∃ o eff lines,
    behaves (download_and_read_xml E) xml_temp_file o eff lines
    ∧ (eff = Removed ↔ ∃ r, o = Return (Some r)).
Proof.
  destruct (requests_get E xml_url) as [resp|e] eqn:Hget.
  2: { apply (behaves_handled _ _ xml_error_line e Kept
                ["Downloading XML file from: " +:+ xml_url]); [|done].
       intros w. apply (xml_get_raises E w e Hget). }
  destruct (raise_for_status resp) as [e|] eqn:Hst.
  { apply (behaves_handled _ _ xml_error_line e Kept
             ["Downloading XML file from: " +:+ xml_url]); [|done].
    intros w. apply (xml_status_raises E w resp e Hget Hst). }
  destruct (open_wb E xml_temp_file) as [e|] eqn:Hopen.
  { apply (behaves_handled _ _ xml_error_line e Kept
             ["Downloading XML file from: " +:+ xml_url]); [|done].
    intros w. apply (xml_open_raises E w resp e Hget Hst Hopen). }
  destruct (ET_parse_bytes E (content resp)) as [root|e] eqn:Hparse.
  2: { apply (behaves_handled _ _ xml_error_line e (Written (content resp))
                xml_download_lines); [|done].
       intros w. apply (xml_parse_raises E w resp e Hget Hst Hopen Hparse). }
  destruct (os_remove_error E xml_temp_file) as [e|] eqn:Hrm.
  - apply (behaves_handled _ _ xml_error_line e (Written (content resp))
             (xml_download_lines ++ xml_report_lines root)); [|done].
    intros w. by rewrite (xml_parsed E w resp root Hget Hst Hopen Hparse), Hrm.
  - exists (Return (Some (row_record <$> take 3 (findall_row root)))), Removed,
      (xml_download_lines ++ xml_report_lines root
       ++ [removed_line xml_temp_file]).
    split; [|split; eauto].
    intros w. by rewrite (xml_parsed E w resp root Hget Hst Hopen Hparse), Hrm.
Qed.

Lemma access_csv_with_pandas_behaves E :
  ∃ o eff lines,
    behaves (access_csv_with_pandas E) csv_temp_file o eff lines
    ∧ (eff = Removed ↔ ∃ r, o = Return (Some r)).
Proof.
  destruct (requests_get E csv_url) as [resp|e] eqn:Hget.
  2: { apply (behaves_handled _ _ csv_error_line e Kept
                ["Downloading CSV file from: " +:+ csv_url]); [|done].
       intros w. apply (csv_get_raises E w e Hget). }
  destruct (raise_for_status resp) as [e|] eqn:Hst.
  { apply (behaves_handled _ _ csv_error_line e Kept
             ["Downloading CSV file from: " +:+ csv_url]); [|done].
    intros w. apply (csv_status_raises E w resp e Hget Hst). }
  destruct (open_wb E csv_temp_file) as [e|] eqn:Hopen.
  { apply (behaves_handled _ _ csv_error_line e Kept
             ["Downloading CSV file from: " +:+ csv_url]); [|done].
    intros w. apply (csv_open_raises E w resp e Hget Hst Hopen). }
  destruct (pd_read_csv_bytes E (content resp)) as [df|e] eqn:Hread.
  2: { apply (behaves_handled _ _ csv_error_line e (Written (content resp))
                csv_download_lines); [|done].
       intros w. apply (csv_read_raises E w resp e Hget Hst Hopen Hread). }
  pose proof (λ w, csv_loaded E w resp df Hget Hst Hopen Hread) as Hrun.
  cbv zeta in Hrun.
  destruct (head3_to_string df) as [rendered|e].
  2: { eapply (behaves_handled _ _ csv_error_line e (Written (content resp)));
         [|done].
       intros w. rewrite Hrun. simpl. rewrite <- ?app_assoc. reflexivity. }
  destruct (describe_first_numeric df) as [described|e].
  2: { eapply (behaves_handled _ _ csv_error_line e (Written (content resp)));
         [|done].
       intros w. rewrite Hrun. simpl. rewrite <- ?app_assoc. reflexivity. }
  destruct (os_remove_error E csv_temp_file) as [e|].
  - eapply (behaves_handled _ _ csv_error_line e (Written (content resp)));
      [|done].
    intros w. rewrite Hrun. simpl. rewrite <- ?app_assoc. reflexivity.
  - eexists (Return (Some df)), Removed, _. split; [|split; eauto].
    intros w. rewrite Hrun. by rewrite <- !app_assoc.
Qed.

(** X13: fetching twice with the same answers from the network and the
    disk gives the result of fetching once and leaves the disk as one
    call leaves it, for both file fetchers and however the calls end. *)
Theorem twice_is_once_on_disk E w :
  (twice (download_and_read_xml E) w).1 = (download_and_read_xml E w).1
  ∧ files (twice (download_and_read_xml E) w).2
    = files (download_and_read_xml E w).2
  ∧ (twice (access_csv_with_pandas E) w).1 = (access_csv_with_pandas E w).1
  ∧ files (twice (access_csv_with_pandas E) w).2
    = files (access_csv_with_pandas E w).2.
Proof.
  destruct (download_and_read_xml_behaves E) as (rx & ex & lx & Hx & _).
  destruct (access_csv_with_pandas_behaves E) as (rc & ec & lc & Hc & _).
  unfold twice. rewrite !run_bind, !Hx, !Hc.
  destruct rx, rc; simpl; by rewrite ?Hx, ?Hc, ?apply_effect_idemp.
Qed.

(** ** The driver *)

Lemma main_run py_repr E rj J rx effx X rc effc C :
  says (access_json_api py_repr E) (Return rj) J →
  behaves (download_and_read_xml E) xml_temp_file (Return rx) effx X →
  behaves (access_csv_with_pandas E) csv_temp_file (Return rc) effc C →
  ∀ w, main py_repr E w
       = (Return (rj, rx, rc),
          World (apply_effect csv_temp_file effc
                   (apply_effect xml_temp_file effx (files w)))
            (stdout w ++ main_opening ++ J ++ main_before_xml ++ X
             ++ main_before_csv ++ C ++ [main_closing])).
Proof.
  intros HJ HX HC w. unfold main.
  do 4 io_print. rewrite run_bind, HJ. io_red.
  do 2 io_print. rewrite run_bind, HX. io_red.
  do 2 io_print. rewrite run_bind, HC. io_red.
  io_print. unfold mret, IO_ret, main_opening, main_before_xml,
    main_before_csv.
  by rewrite <- !app_assoc.
Qed.

(** An exception that a fetcher lets through ends the driver there. *)
Lemma main_json_raises py_repr E e J :
  says (access_json_api py_repr E) (Raise e) J →
  ∀ w, main py_repr E w
       = (Raise e, World (files w) (stdout w ++ main_opening ++ J)).
Proof.
  intros HJ w. unfold main.
  do 4 io_print. rewrite run_bind, HJ. io_red.
  unfold main_opening. by rewrite <- !app_assoc.
Qed.

Lemma main_xml_raises py_repr E rj J e effx X :
  says (access_json_api py_repr E) (Return rj) J →
  behaves (download_and_read_xml E) xml_temp_file (Raise e) effx X →
  ∀ w, main py_repr E w
       = (Raise e,
          World (apply_effect xml_temp_file effx (files w))
            (stdout w ++ main_opening ++ J ++ main_before_xml ++ X)).
Proof.
  intros HJ HX w. unfold main.
  do 4 io_print. rewrite run_bind, HJ. io_red.
  do 2 io_print. rewrite run_bind, HX. io_red.
  unfold main_opening, main_before_xml. by rewrite <- !app_assoc.
Qed.

Lemma main_csv_raises py_repr E rj J rx effx X e effc C :
  says (access_json_api py_repr E) (Return rj) J →
  behaves (download_and_read_xml E) xml_temp_file (Return rx) effx X →
  behaves (access_csv_with_pandas E) csv_temp_file (Raise e) effc C →
  ∀ w, main py_repr E w
       = (Raise e,
          World (apply_effect csv_temp_file effc
                   (apply_effect xml_temp_file effx (files w)))
            (stdout w ++ main_opening ++ J ++ main_before_xml ++ X
             ++ main_before_csv ++ C)).
Proof.
  intros HJ HX HC w. unfold main.
  do 4 io_print. rewrite run_bind, HJ. io_red.
  do 2 io_print. rewrite run_bind, HX. io_red.
  do 2 io_print. rewrite run_bind, HC. io_red.
  unfold main_opening, main_before_xml, main_before_csv.
  by rewrite <- !app_assoc.
Qed.


Lemma printed_behaves {A} (m : IO A) temp_file r eff lines w :
  behaves m temp_file r eff lines → (m w).1 = r ∧ printed m w = lines.
Proof.
  intros H. unfold printed. rewrite H. simpl. by rewrite drop_app_length.
Qed.

(** A handler that prints and returns [None] turns a body that raises
    instances of [Exception] only into a call that returns. *)
Lemma try_except_returns {A} (body : IO (option A)) error_line w :
  only_Exceptions body →
  ∃ r w', try_except body (λ e, print (error_line e);; mret None) w
          = (Return r, w').
Proof.
  intros Hbody. unfold try_except.
  destruct (body w) as [[v|e] wb] eqn:Hrun; [eauto|].
  apply Hbody, Is_true_true in Hrun. rewrite Hrun, run_bind, run_print. eauto.
Qed.

Lemma fetchers_return py_repr E w :
  library_raises_Exceptions E →
  (∃ r, (access_json_api py_repr E w).1 = Return r)
  ∧ (∃ r, (download_and_read_xml E w).1 = Return r)
  ∧ (∃ r, (access_csv_with_pandas E w).1 = Return r).
Proof.
  intros HE. split; [|split].
  - assert (∃ r w', access_json_api py_repr E w = (Return r, w'))
      as (r & w' & Hrun).
    { apply (try_except_returns (access_json_api_try py_repr E)
               json_error_line w).
      by apply access_json_api_try_only_Exceptions. }
    exists r. by rewrite Hrun.
  - assert (∃ r w', download_and_read_xml E w = (Return r, w'))
      as (r & w' & Hrun).
    { apply (try_except_returns (download_and_read_xml_try E)
               xml_error_line w).
      by apply download_and_read_xml_try_only_Exceptions. }
    exists r. by rewrite Hrun.
  - assert (∃ r w', access_csv_with_pandas E w = (Return r, w'))
      as (r & w' & Hrun).
    { apply (try_except_returns (access_csv_with_pandas_try E)
               csv_error_line w).
      by apply access_csv_with_pandas_try_only_Exceptions. }
    exists r. by rewrite Hrun.
Qed.



(** X15: the disk after the driver.  When the JSON fetcher returns, the
    XML temporary file is as the XML fetcher alone leaves it; when the
    XML fetcher returns too, the CSV temporary file is as the CSV
    fetcher alone leaves it; every other file is as it was, however the
    driver ends. *)
Theorem main_disk py_repr E w path :
  ((∃ r, (access_json_api py_repr E w).1 = Return r) →
   files (main py_repr E w).2 !! xml_temp_file
   = files (download_and_read_xml E w).2 !! xml_temp_file)
  ∧ ((∃ r, (access_json_api py_repr E w).1 = Return r) →
     (∃ r, (download_and_read_xml E w).1 = Return r) →
     files (main py_repr E w).2 !! csv_temp_file
     = files (access_csv_with_pandas E w).2 !! csv_temp_file)
  ∧ (path ≠ xml_temp_file → path ≠ csv_temp_file →
     files (main py_repr E w).2 !! path = files w !! path).
Proof.
  destruct (access_json_api_says py_repr E) as (oj & J & HJ).
  destruct (download_and_read_xml_behaves E) as (ox & ex & X & HX & _).
  destruct (access_csv_with_pandas_behaves E) as (oc & ec & C & HC & _).
  destruct (printed_behaves _ _ _ _ _ w HX) as [Hox _].
  rewrite Hox, HJ, HX, HC. simpl. clear Hox.
  assert (∀ eff fs, apply_effect csv_temp_file eff fs !! csv_temp_file
                    = apply_effect csv_temp_file eff
                        (apply_effect xml_temp_file ex fs) !! csv_temp_file)
    as Hcsv.
  { intros [| |] fs; simpl.
    - by rewrite apply_effect_other.
    - by rewrite !lookup_insert_eq.
    - by rewrite !lookup_delete_eq. }
  destruct oj as [rj|e].
  2: { rewrite (main_json_raises py_repr E e J HJ w). simpl.
       split; [by intros [? [=]] | split; [by intros [? [=]] | done]]. }
  destruct ox as [rx|e].
  2: { rewrite (main_xml_raises py_repr E rj J e ex X HJ HX w). simpl.
       split; [done | split; [by intros _ [? [=]] |]].
       intros Hx Hc. by rewrite apply_effect_other. }
  destruct oc as [rc|e].
  - rewrite (main_run py_repr E rj J rx ex X rc ec C HJ HX HC w). simpl.
    split; [by rewrite apply_effect_other | split; [by rewrite <- Hcsv|]].
    intros Hx Hc. by rewrite !apply_effect_other.
  - rewrite (main_csv_raises py_repr E rj J rx ex X e ec C HJ HX HC w). simpl.
    split; [by rewrite apply_effect_other | split; [by rewrite <- Hcsv|]].
    intros Hx Hc. by rewrite !apply_effect_other.
Qed.

Lemma main_disk_witness :
  files (main repr_plain working_env used_world).2 !! "notes.txt"
  = Some (ascii_bytes "keep me")
  ∧ files (main repr_plain working_env used_world).2 !! xml_temp_file = None
  ∧ files (main repr_plain working_env used_world).2 !! csv_temp_file = None.
Proof.
  destruct (fetchers_return repr_plain working_env used_world
              working_env_raises_Exceptions) as (Hj & Hx & _).
  pose proof (main_disk repr_plain working_env used_world "notes.txt")
    as (Hxml & Hcsv & Hother).
  rewrite (Hxml Hj), (Hcsv Hj Hx), Hother by discriminate. repeat split.
Defined.
